(** * MemoryCore: memory entity, in-memory backend, event bus and manager

    A shallow embedding of the Python sources
      - [memorycore/core/memory.py]            (module [Memory])     
      - [memorycore/storage/memory_backend.py] (module [InMemoryBackend])
      - [memorycore/events/base.py]            (module [SimpleEventBus])
      - [memorycore/core/memory_manager.py]    (module [MemoryManager])
      - [memorycore/observability/health.py]   (module [HealthChecker])
    followed by the properties established about them.

    Conventions of the embedding.
    - A Python [str] is a [string]; its characters stand for code points
      below 256.  Identifiers ([UUID]) are natural numbers [N].
    - A Python [float] is an IEEE-754 binary64 number, i.e. a primitive
      [float] of the kernel; [*], [+], [/], [==] and [<] are the primitive
      operations.  Logging and the durations handed to the metrics
      collector are left out.
    - [datetime] values are integers: the microseconds elapsed since
      [datetime.min] (0001-01-01 00:00:00); the values a [datetime] can
      hold are those from [0] to [DateTime.max].  A call of
      [datetime.now] or [uuid4] is an explicit argument of the operation
      that performs it.
    - Exceptions are values of [PyError]; a function that may raise returns
      a [result]. *)

From Stdlib Require Import ZArith NArith List Bool Ascii String Lia.
From Stdlib Require Import Floats.
From stdpp Require Import base option gmap strings.
Import ListNotations.

Local Open Scope string_scope.
Local Open Scope list_scope.
Local Open Scope Z_scope.

(** ** Exceptions ([memorycore/exceptions], builtins) *)

Inductive PyError : Type :=
| InvalidMemoryError (message : string) (field : string)
| InvalidQueryError (message : string) (query : string)
| StorageConnectionError (message : string)
| StorageOperationError (message : string) (operation : string)
| StorageNotFoundError (message : string) (resource_id : string)
| EmbeddingModelError (message : string)
| EmbeddingDimensionError (message : string)
| PydanticValidationError (message : string)
| ValueError (message : string)
| ZeroDivisionError (message : string)
| OverflowError.
(* [OverflowError] carries no message here: its text depends on which
   check of the [datetime] module fails and on the implementation of
   that module. *)

(** The base classes under [MemoryCoreError]; the exceptions of Python and
    of pydantic are outside that hierarchy. *)
Inductive ErrorClass : Type :=
| ValidationErrorClass
| StorageErrorClass
| EmbeddingErrorClass
| ForeignErrorClass.

Definition error_class (e : PyError) : ErrorClass :=
  match e with
  | InvalidMemoryError _ _ | InvalidQueryError _ _ => ValidationErrorClass
  | StorageConnectionError _ | StorageOperationError _ _
  | StorageNotFoundError _ _ => StorageErrorClass
  | EmbeddingModelError _ | EmbeddingDimensionError _ => EmbeddingErrorClass
  | PydanticValidationError _ | ValueError _ | ZeroDivisionError _
  | OverflowError => ForeignErrorClass
  end.

(** [error_code] as set by each class's [__init__]. *)
Definition error_code (e : PyError) : string :=
  match e with
  | InvalidMemoryError _ _ => "INVALID_MEMORY"
  | InvalidQueryError _ _ => "INVALID_QUERY"
  | StorageConnectionError _ => "STORAGE_CONNECTION_ERROR"
  | StorageOperationError _ _ => "STORAGE_OPERATION_ERROR"
  | StorageNotFoundError _ _ => "STORAGE_NOT_FOUND"
  | EmbeddingModelError _ => "EMBEDDING_MODEL_ERROR"
  | EmbeddingDimensionError _ => "EMBEDDING_DIMENSION_ERROR"
  | PydanticValidationError _ | ValueError _ | ZeroDivisionError _
  | OverflowError => ""
  end.

Definition is_not_found_class (e : PyError) : bool :=
  match e with
  | StorageNotFoundError _ _ => true
  | _ => false
  end.

Inductive result (A : Type) : Type :=
| Ok (a : A)
| Raise (e : PyError).
Arguments Ok {A} a.
Arguments Raise {A} e.

Definition rbind {A B} (r : result A) (k : A -> result B) : result B :=
  match r with
  | Ok a => k a
  | Raise e => Raise e
  end.

Notation "'let*' x ':=' r 'in' k" := (rbind r (fun x => k))
  (at level 10, x name, r at level 100, k at level 200).

Fixpoint rmapM {A B} (f : A -> result B) (l : list A) : result (list B) :=
  match l with
  | [] => Ok []
  | x :: l' =>
      let* y := f x in
      let* ys := rmapM f l' in
      Ok (y :: ys)
  end.

(** ** Python helpers *)

Module Py.

(** [str.isspace] on one character: U+0009..U+000D, U+001C..U+0020,
    U+0085 and U+00A0 are the white-space code points below 256. *)
Definition is_space (c : ascii) : bool :=
  let n := N_of_ascii c in
  ((9 <=? n) && (n <=? 13) || (28 <=? n) && (n <=? 32)
   || (n =? 133) || (n =? 160))%N.

Fixpoint lstrip (s : string) : string :=
  match s with
  | EmptyString => EmptyString
  | String c s' => if is_space c then lstrip s' else s
  end.

(** [rstrip] keeps a character when it is not a space or when something
    is left after it. *)
Fixpoint rstrip (s : string) : string :=
  match s with
  | EmptyString => EmptyString
  | String c s' =>
      match rstrip s' with
      | EmptyString => if is_space c then EmptyString else String c EmptyString
      | r => String c r
      end
  end.

Definition strip (s : string) : string := rstrip (lstrip s).

(** Truth value of a [str]: non-empty. *)
Definition truthy (s : string) : bool :=
  match s with
  | EmptyString => false
  | _ => true
  end.

(** Truth value of an optional [str] argument ([None] is false). *)
Definition truthy_opt (o : option string) : bool :=
  match o with
  | Some s => truthy s
  | None => false
  end.

(** [a or b] on an optional string and a default. *)
Definition or_default (o : option string) (d : string) : string :=
  match o with
  | Some s => if truthy s then s else d
  | None => d
  end.

Fixpoint all_space (s : string) : bool :=
  match s with
  | EmptyString => true
  | String c s' => is_space c && all_space s'
  end.

(** A slice bound [i] of a Python slice over a list of length [len]:
    negative bounds count from the end, all bounds are clamped. *)
Definition clamp_index (len : nat) (i : Z) : nat :=
  if i <? 0 then Z.to_nat (Z.max 0 (Z.of_nat len + i))
  else Nat.min len (Z.to_nat i).

(** [l[:n]] *)
Definition slice_to {A} (l : list A) (n : Z) : list A :=
  firstn (clamp_index (length l) n) l.

(** [l[a:b]] *)
Definition slice {A} (l : list A) (a b : Z) : list A :=
  let lo := clamp_index (length l) a in
  let hi := clamp_index (length l) b in
  firstn (hi - lo)%nat (skipn lo l).

(** [str.lower] on one character below 256: the letters A-Z and the
    upper-case letters of Latin-1 (U+00C0..U+00DE without U+00D7) move up
    by 32, every other character stays. *)
Definition lower_char (c : ascii) : ascii :=
  let n := N_of_ascii c in
  if ((65 <=? n) && (n <=? 90)
      || (192 <=? n) && (n <=? 222) && negb (n =? 215))%N
  then ascii_of_N (n + 32)
  else c.

Fixpoint lower (s : string) : string :=
  match s with
  | EmptyString => EmptyString
  | String c s' => String (lower_char c) (lower s')
  end.

End Py.

(** ** Insertion-ordered dictionaries

    A Python [dict] whose iteration order is observable: assignment to an
    existing key keeps the key's position, assignment to a new key appends,
    [pop] removes. *)

Module PyDict.
Section Dict.
Context {K V : Type} `{EqDecision K}.

Definition t := list (K * V).

Fixpoint get (k : K) (d : list (K * V)) : option V :=
  match d with
  | [] => None
  | (k', v) :: d' => if decide (k' = k) then Some v else get k d'
  end.

(** [d[k] = v] *)
Fixpoint set (k : K) (v : V) (d : list (K * V)) : list (K * V) :=
  match d with
  | [] => [(k, v)]
  | (k', v') :: d' =>
      if decide (k' = k) then (k, v) :: d' else (k', v') :: set k v d'
  end.

(** [d.pop(k, None)] *)
Fixpoint pop (k : K) (d : list (K * V)) : list (K * V) :=
  match d with
  | [] => []
  | (k', v') :: d' =>
      if decide (k' = k) then d' else (k', v') :: pop k d'
  end.

Definition keys (d : list (K * V)) : list K := map fst d.
End Dict.
End PyDict.

(** ** The memory entity ([memorycore/core/memory.py]) *)

Definition UUID := N.
Definition datetime := Z.
Definition vector := list float.

(** *** [datetime] and [timedelta] (standard library) *)

Module DateTime.
Definition microseconds_per_day : Z := 86400000000.

(** [date.max.toordinal()]: the number of days from 0001-01-01 to
    9999-12-31, both included. *)
Definition max_ordinal : Z := 3652059.

(** [datetime.max] (9999-12-31 23:59:59.999999). *)
Definition max : datetime := max_ordinal * microseconds_per_day - 1.

(** The largest number of days a [timedelta] holds. *)
Definition max_delta_days : Z := 999999999.

(** [timedelta(days=days)], in microseconds: [OverflowError] when the
    magnitude of [days] exceeds [max_delta_days]. *)
Definition timedelta (days : Z) : result Z :=
  if Z.abs days <=? max_delta_days
  then Ok (days * microseconds_per_day)
  else Raise OverflowError.

(** [dt + delta]: [OverflowError] when the sum is not a [datetime]. *)
Definition add (dt : datetime) (delta : Z) : result datetime :=
  let sum := dt + delta in
  if (0 <=? sum) && (sum <=? max) then Ok sum else Raise OverflowError.
End DateTime.

Inductive Importance := low | medium | high.
Inductive RelationshipType := related | supersedes | contradicts | extends.

Module MemoryMetadata.
Record t := mk {
  category : string;
  tags : list string;
  importance : Importance;
  custom_fields : list (string * string)
}.
(** [MemoryMetadata()] *)
Definition default : t := mk "general" [] medium [].

(** The validator of [tags]:
    [[tag.lower().strip() for tag in v if tag.strip()]]. *)
Definition validate_tags (v : list string) : list string :=
  map (fun tag => Py.strip (Py.lower tag))
      (List.filter (fun tag => Py.truthy (Py.strip tag)) v).

(** [MemoryMetadata(category=..., tags=..., importance=..., custom_fields=...)] *)
Definition new (category : string) (tags : list string)
    (importance : Importance) (custom_fields : list (string * string)) : t :=
  mk category (validate_tags tags) importance custom_fields.
End MemoryMetadata.

Module MemoryRelationship.
Record t := mk {
  target_id : UUID;
  relationship_type : RelationshipType;
  strength : float
}.

(** [MemoryRelationship(target_id=..., relationship_type=..., strength=...)]:
    [strength] is declared [Field(ge=0.0, le=1.0)]. *)
Definition new (target_id : UUID) (relationship_type : RelationshipType)
    (strength : float) : result t :=
  if ((0 <=? strength) && (strength <=? 1))%float
  then Ok (mk target_id relationship_type strength)
  else Raise (PydanticValidationError "strength out of range").
End MemoryRelationship.

Module MemoryVersion.
(** [version] is declared [Field(ge=1)]. *)
Record t := mk {
  version : positive;
  created_at : datetime;
  content : string;
  changed_fields : list string
}.
End MemoryVersion.

Module Memory.
(** [version] is declared [Field(default=1, ge=1)] and is only ever
    assigned by [self.version += 1]. *)
Record t := mk {
  id : UUID;
  content : string;
  metadata : MemoryMetadata.t;
  embedding : option vector;
  tenant_id : string;
  created_at : datetime;
  updated_at : datetime;
  expires_at : option datetime;
  relationships : list MemoryRelationship.t;
  versions : list MemoryVersion.t;
  version : positive
}.

(** The validator of [content]: a [ValueError] raised in it reaches the
    caller of [Memory(...)] as pydantic's validation error. *)
Definition validate_content (v : string) : result string :=
  if negb (Py.truthy v) || negb (Py.truthy (Py.strip v))
  then Raise (PydanticValidationError "Memory content cannot be empty")
  else Ok (Py.strip v).

(** [Memory(content=..., metadata=..., tenant_id=...)]; [new_id] is the
    value of [uuid4()], [now_created] and [now_updated] are the two clock
    readings of the default factories. *)
Definition new (new_id : UUID) (now_created now_updated : datetime)
    (content : string) (metadata : MemoryMetadata.t) (tenant_id : string)
  : result t :=
  let* content := validate_content content in
  Ok (mk new_id content metadata None tenant_id now_created now_updated
         None [] [] 1).

(** [is_expired], [now] being the clock reading taken by the call. *)
Definition is_expired (now : datetime) (self : t) : bool :=
  match expires_at self with
  | None => false
  | Some e => e <? now
  end.

(** [create_version(changed_fields)]; [None] stands for the omitted
    argument, [now] for the reading of [datetime.now]. *)
Definition create_version (now : datetime)
    (changed_fields : option (list string)) (self : t) : t :=
  let changed_fields :=
    match changed_fields with
    | None => ["content"]
    | Some cf => cf
    end in
  let version_ :=
    MemoryVersion.mk (version self) (updated_at self) (content self)
                     changed_fields in
  mk (id self) (content self) (metadata self) (embedding self)
     (tenant_id self) (created_at self)
     now
     (expires_at self) (relationships self)
     (versions self ++ [version_])
     (version self + 1)%positive.

(** [set_ttl(days)]: [datetime.now(timezone.utc) + timedelta(days=days)],
    [now] being the clock reading; both the construction of the
    [timedelta] and the addition may raise [OverflowError], and the
    memory is then left as it was. *)
Definition set_ttl (now : datetime) (days : Z) (self : t) : result t :=
  let* delta := DateTime.timedelta days in
  let* expires_at_ := DateTime.add now delta in
  Ok (mk (id self) (content self) (metadata self) (embedding self)
         (tenant_id self) (created_at self) (updated_at self)
         (Some expires_at_)
         (relationships self) (versions self) (version self)).

(** Attribute assignments used by the manager. *)
Definition set_content (c : string) (self : t) : t :=
  mk (id self) c (metadata self) (embedding self)
     (tenant_id self) (created_at self) (updated_at self) (expires_at self)
     (relationships self) (versions self) (version self).

Definition set_embedding (e : option vector) (self : t) : t :=
  mk (id self) (content self) (metadata self) e
     (tenant_id self) (created_at self) (updated_at self) (expires_at self)
     (relationships self) (versions self) (version self).

Definition set_metadata (md : MemoryMetadata.t) (self : t) : t :=
  mk (id self) (content self) md (embedding self)
     (tenant_id self) (created_at self) (updated_at self) (expires_at self)
     (relationships self) (versions self) (version self).

(** [if memory.embedding:]: present and non-empty. *)
Definition embedding_truthy (self : t) : option vector :=
  match embedding self with
  | Some (x :: v) => Some (x :: v)
  | _ => None
  end.

(** [add_relationship]: the relationship is built first, then every
    relationship to the same target is dropped and the new one appended. *)
Definition add_relationship (target_id : UUID)
    (relationship_type : RelationshipType) (strength : float) (self : t)
  : result t :=
  let* relationship :=
    MemoryRelationship.new target_id relationship_type strength in
  Ok (mk (id self) (content self) (metadata self) (embedding self)
         (tenant_id self) (created_at self) (updated_at self)
         (expires_at self)
         (List.filter
            (fun r => negb (MemoryRelationship.target_id r =? target_id)%N)
            (relationships self) ++ [relationship])
         (versions self) (version self)).
End Memory.

(** ** The reference backend ([memorycore/storage/memory_backend.py]) *)

(** [filters: dict[str, Any] | None]: the two keys the backend reads. *)
Module Filters.
Record t := mk {
  category : option string;
  tags : option (list string)
}.
End Filters.

(** [SearchResult] of [memorycore/storage/base.py]; its [metadata] is
    always the empty dictionary here. *)
Module SearchResult.
Record t := mk {
  memory : Memory.t;
  score : float
}.
End SearchResult.

Module InMemoryBackend.

Definition key : Type := UUID * string.

Record t := mk {
  _memories : list (key * Memory.t);
  _embeddings : list (key * vector)
}.

(** [InMemoryBackend()] *)
Definition init : t := mk [] [].

Definition save (memory : Memory.t) (self : t) : t :=
  let k := (Memory.id memory, Memory.tenant_id memory) in
  mk (PyDict.set k memory (_memories self))
     (match Memory.embedding_truthy memory with
      | Some e => PyDict.set k e (_embeddings self)
      | None => _embeddings self
      end).

Definition get (memory_id : UUID) (tenant_id : string) (self : t)
  : option Memory.t :=
  PyDict.get (memory_id, tenant_id) (_memories self).

Definition delete (memory_id : UUID) (tenant_id : string) (self : t) : t :=
  let k := (memory_id, tenant_id) in
  mk (PyDict.pop k (_memories self)) (PyDict.pop k (_embeddings self)).

Definition close (self : t) : t := mk [] [].

(** [health_check]: the status and the number of stored memories. *)
Definition health_check (self : t) : string * nat :=
  ("healthy", length (_memories self)).

(** *** Similarity *)

(** [sum(...)] over floats: the terms are added from left to right,
    starting from the integer [0]. *)
Definition fsum (l : list float) : float :=
  fold_left PrimFloat.add l 0%float.

(** Python's [/] on floats raises when the divisor compares equal to 0. *)
Definition py_div (x y : float) : result float :=
  if (y =? 0)%float
  then Raise (ZeroDivisionError "float division by zero")
  else Ok (x / y)%float.

Definition dot_product (vec1 vec2 : vector) : float :=
  fsum (map (fun '(a, b) => (a * b)%float) (combine vec1 vec2)).

Section Similarity.
(** [x ** 0.5] is computed by the platform's [pow]; it is a parameter
    of the development. *)
Variable pow_half : float -> float.

Definition magnitude (vec : vector) : float :=
  pow_half (fsum (map (fun a => (a * a)%float) vec)).

Definition _cosine_similarity (vec1 vec2 : vector) : result float :=
  let dot_product := dot_product vec1 vec2 in
  let magnitude1 := magnitude vec1 in
  let magnitude2 := magnitude vec2 in
  if (magnitude1 =? 0)%float || (magnitude2 =? 0)%float
  then Ok 0%float
  else py_div dot_product (magnitude1 * magnitude2)%float.

(** *** Filters *)

Definition issubset (required have : list string) : bool :=
  forallb (fun r => existsb (String.eqb r) have) required.

(** The loop body shared by [_apply_filters] and
    [_apply_filters_to_memories]: [true] when the memory is kept. *)
Definition passes (filters : Filters.t) (memory : Memory.t) : bool :=
  match Filters.category filters with
  | Some c =>
      String.eqb (MemoryMetadata.category (Memory.metadata memory)) c
  | None => true
  end
  &&
  match Filters.tags filters with
  | Some required_tags =>
      issubset required_tags (MemoryMetadata.tags (Memory.metadata memory))
  | None => true
  end.

Definition _apply_filters (results : list SearchResult.t)
    (filters : Filters.t) : list SearchResult.t :=
  List.filter (fun r => passes filters (SearchResult.memory r)) results.

Definition _apply_filters_to_memories (memories : list Memory.t)
    (filters : Filters.t) : list Memory.t :=
  List.filter (passes filters) memories.

(** [if filters:]: not [None] and not the empty dictionary. *)
Definition filters_truthy (filters : option Filters.t)
  : option Filters.t :=
  match filters with
  | Some f =>
      match Filters.category f, Filters.tags f with
      | None, None => None
      | _, _ => Some f
      end
  | None => None
  end.

(** *** Ranking *)

(** [results.sort(key=lambda x: x.score, reverse=True)]: a stable
    sort by decreasing score, written as an insertion sort.  Every stable
    sort gives this list when no score is NaN; with a NaN among the
    scores [<] is no longer an order, the list that [list.sort] returns
    depends on the steps of its algorithm, and this function need not
    agree with it.  No property below rests on the order in that case. *)
Fixpoint insert_desc (x : SearchResult.t) (l : list SearchResult.t)
  : list SearchResult.t :=
  match l with
  | [] => [x]
  | y :: l' =>
      if (SearchResult.score x <? SearchResult.score y)%float
      then y :: insert_desc x l'
      else x :: y :: l'
  end.

Definition sort_desc (l : list SearchResult.t) : list SearchResult.t :=
  fold_right insert_desc [] l.

(** *** Queries *)

(** The memories of one tenant, in the dictionary's order. *)
Definition of_tenant (tenant_id : string) (self : t) : list Memory.t :=
  map snd
    (List.filter (fun '((_, tenant), _) => String.eqb tenant tenant_id)
                 (_memories self)).

Definition score_one (query_embedding : vector) (memory : Memory.t)
  : result (option SearchResult.t) :=
  match Memory.embedding_truthy memory with
  | Some e =>
      let* score := _cosine_similarity query_embedding e in
      Ok (Some (SearchResult.mk memory score))
  | None => Ok None
  end.

Definition search (query_embedding : vector) (tenant_id : string)
    (limit : Z) (filters : option Filters.t) (self : t)
  : result (list SearchResult.t) :=
  let* scored := rmapM (score_one query_embedding) (of_tenant tenant_id self) in
  let results := omap (fun o => o) scored in
  let results :=
    match filters_truthy filters with
    | Some f => _apply_filters results f
    | None => results
    end in
  Ok (Py.slice_to (sort_desc results) limit).

Definition list_ (tenant_id : string) (limit offset : Z)
    (filters : option Filters.t) (self : t) : list Memory.t :=
  let memories := of_tenant tenant_id self in
  let memories :=
    match filters_truthy filters with
    | Some f => _apply_filters_to_memories memories f
    | None => memories
    end in
  Py.slice memories offset (offset + limit).

Definition count (tenant_id : string) (filters : option Filters.t)
    (self : t) : nat :=
  let memories := of_tenant tenant_id self in
  let memories :=
    match filters_truthy filters with
    | Some f => _apply_filters_to_memories memories f
    | None => memories
    end in
  length memories.
End Similarity.
End InMemoryBackend.

(** ** Events ([memorycore/events]) *)

(** The events of [memory_events.py] with their payloads.  [event_id] and
    [timestamp] are filled in by [__post_init__] from [uuid4] and the clock
    and play no role below. *)
Inductive Event : Type :=
| MemoryCreatedEvent (memory : Memory.t)
| MemoryUpdatedEvent (memory : Memory.t) (previous_version : positive)
| MemoryDeletedEvent (memory_id : UUID) (tenant_id : string)
| MemorySearchedEvent (query : string) (result_count : nat) (tenant_id : string).

Definition event_type (e : Event) : string :=
  match e with
  | MemoryCreatedEvent _ => "memory.created"
  | MemoryUpdatedEvent _ _ => "memory.updated"
  | MemoryDeletedEvent _ _ => "memory.deleted"
  | MemorySearchedEvent _ _ _ => "memory.searched"
  end.

Definition event_tenant_id (e : Event) : string :=
  match e with
  | MemoryCreatedEvent m | MemoryUpdatedEvent m _ => Memory.tenant_id m
  | MemoryDeletedEvent _ t | MemorySearchedEvent _ _ t => t
  end.

(** A handler is a callable; the bus only ever compares handlers, so a
    handler is represented by its identity. *)
Definition EventHandler := nat.

Module SimpleEventBus.

(** [self._handlers: dict[str, list[EventHandler]]] *)
Record t := mk { _handlers : gmap string (list EventHandler) }.

Definition init : t := mk ∅.

Definition subscribe (event_type : string) (handler : EventHandler)
    (self : t) : t :=
  let registered :=
    match _handlers self !! event_type with
    | Some l => l
    | None => []
    end in
  mk (<[event_type := registered ++ [handler]]> (_handlers self)).

(** [list.remove(x)]: drops the first element equal to [x], raises
    [ValueError] when there is none. *)
Fixpoint list_remove (x : EventHandler) (l : list EventHandler)
  : result (list EventHandler) :=
  match l with
  | [] => Raise (ValueError "list.remove(x): x not in list")
  | y :: l' =>
      if Nat.eqb y x then Ok l'
      else let* r := list_remove x l' in Ok (y :: r)
  end.

Definition unsubscribe (event_type : string) (handler : EventHandler)
    (self : t) : result t :=
  match _handlers self !! event_type with
  | Some l =>
      let* l' := list_remove handler l in
      Ok (mk (<[event_type := l']> (_handlers self)))
  | None => Ok self
  end.

(** [publish]: every handler of the event's type is called, in
    subscription order; [run] is what calling a handler does, and the
    result lists the handlers whose failure was printed. *)
Definition publish (run : EventHandler -> Event -> result unit)
    (event : Event) (self : t) : list EventHandler :=
  let handlers :=
    match _handlers self !! event_type event with
    | Some l => l
    | None => []
    end in
  List.filter
    (fun h => match run h event with Ok _ => false | Raise _ => true end)
    handlers.

(** A handler is registered for a type when it occurs in that type's
    list. *)
Definition registered (event_type : string) (handler : EventHandler)
    (self : t) : bool :=
  match _handlers self !! event_type with
  | Some l => existsb (Nat.eqb handler) l
  | None => false
  end.
End SimpleEventBus.

(** ** The manager ([memorycore/core/memory_manager.py]) *)

(** [str(uuid)]: 32 lower-case hexadecimal digits in groups 8-4-4-4-12. *)
Definition hex_digit (n : N) : ascii :=
  match n with
  | 0 => "0" | 1 => "1" | 2 => "2" | 3 => "3" | 4 => "4" | 5 => "5"
  | 6 => "6" | 7 => "7" | 8 => "8" | 9 => "9" | 10 => "a" | 11 => "b"
  | 12 => "c" | 13 => "d" | 14 => "e" | _ => "f"
  end%N%char.

Fixpoint hex_digits (k : nat) (n : N) (acc : string) : string :=
  match k with
  | O => acc
  | S k' => hex_digits k' (n / 16)%N (String (hex_digit (n mod 16)%N) acc)
  end.

Definition uuid_str (u : UUID) : string :=
  let h := hex_digits 32 u "" in
  String.concat "-"
    [substring 0 8 h; substring 8 4 h; substring 12 4 h; substring 16 4 h;
     substring 20 12 h].

(** The part of [Settings] the manager reads. *)
Module Settings.
Record t := mk {
  tenant_id : string;
  default_ttl_days : option Z;
  enable_versioning : bool
}.
End Settings.

Module MemoryManager.

(** Calls received by the storage backend. *)
Inductive StorageCall : Type :=
| call_save (memory : Memory.t)
| call_get (memory_id : UUID) (tenant_id : string)
| call_delete (memory_id : UUID) (tenant_id : string)
| call_search (query_embedding : vector) (tenant_id : string) (limit : Z)
| call_list (tenant_id : string) (limit offset : Z)
| call_count (tenant_id : string).

(** Calls received by the metrics collector (durations left out). *)
Inductive MetricCall : Type :=
| record_operation (operation tenant_id status : string)
| record_embedding (status : string)
| record_search (tenant_id : string).

(** Everything an operation of the manager can change: the backend, the
    calls made on the collaborators and the events handed to the bus.

    The backend hands out the stored object itself, and [update] assigns
    to it before saving it again.  Memories are values here: [update]
    reads the stored value, computes the new one and saves it.  Both of
    [update]'s own exceptions are raised before its first assignment, so
    the two views agree on every store that files each memory under its
    own identifier and tenant ([store_wf] below). *)
Record World := mkWorld {
  storage : InMemoryBackend.t;
  storage_calls : list StorageCall;
  embed_calls : nat;
  metrics : list MetricCall;
  published : list Event
}.

Definition init_world : World :=
  mkWorld InMemoryBackend.init [] 0 [] [].

(** The manager itself: its settings, the embedding service (the answer
    of the service to its [n]-th call, on a given text) and whether a
    metrics collector was supplied. *)
Record t := mk {
  settings : Settings.t;
  embedding : nat -> string -> result vector;
  has_metrics : bool
}.

(** *** A state and exception monad over [World] *)

Definition M (A : Type) : Type := World -> result A * World.

Definition ret {A} (a : A) : M A := fun w => (Ok a, w).
Definition raise {A} (e : PyError) : M A := fun w => (Raise e, w).
Definition bind {A B} (m : M A) (k : A -> M B) : M B :=
  fun w =>
    match m w with
    | (Ok a, w') => k a w'
    | (Raise e, w') => (Raise e, w')
    end.
(** [try: m except Exception as e: h e] *)
Definition try_except {A} (m : M A) (h : PyError -> M A) : M A :=
  fun w =>
    match m w with
    | (Ok a, w') => (Ok a, w')
    | (Raise e, w') => h e w'
    end.
Definition modify (f : World -> World) : M unit := fun w => (Ok tt, f w).
Definition lift {A} (r : result A) : M A := fun w => (r, w).

Notation "x <- m ;; k" := (bind m (fun x => k))
  (at level 64, m at next level, right associativity).
Notation "m ;;; k" := (bind m (fun _ => k))
  (at level 64, right associativity).

Definition log_storage_call (c : StorageCall) : M unit :=
  modify (fun w => mkWorld (storage w) (storage_calls w ++ [c])
                           (embed_calls w) (metrics w) (published w)).

Definition set_storage (s : InMemoryBackend.t) : M unit :=
  modify (fun w => mkWorld s (storage_calls w)
                           (embed_calls w) (metrics w) (published w)).

(** [self.event_bus.publish(event)] *)
Definition publish (e : Event) : M unit :=
  modify (fun w => mkWorld (storage w) (storage_calls w)
                           (embed_calls w) (metrics w) (published w ++ [e])).

(** [@retry(stop=stop_after_attempt(3), ..., reraise=True)]: the call is
    repeated after a failure, three attempts in all, and the last
    failure is raised again.  The waits between attempts are left out. *)
Fixpoint retry_loop {A} (retries : nat) (m : M A) : M A :=
  fun w =>
    match m w with
    | (Ok a, w') => (Ok a, w')
    | (Raise e, w') =>
        match retries with
        | O => (Raise e, w')
        | S n => retry_loop n m w'
        end
    end.

Definition with_retry {A} (m : M A) : M A := retry_loop 2 m.

Section Manager.
Variable self : t.

(** [if self.metrics: self.metrics.<call>] *)
Definition record (c : MetricCall) : M unit :=
  if has_metrics self
  then modify (fun w => mkWorld (storage w) (storage_calls w)
                                (embed_calls w) (metrics w ++ [c])
                                (published w))
  else ret tt.

(** [await self.embedding.embed(text)] *)
Definition embed (text : string) : M vector :=
  fun w =>
    (embedding self (embed_calls w) text,
     mkWorld (storage w) (storage_calls w) (S (embed_calls w))
             (metrics w) (published w)).

Definition _generate_embedding_with_retry (text : string) : M vector :=
  with_retry
    (e <- embed text ;;
     record (record_embedding "success") ;;;
     ret e).

(** [await self.storage.save(memory)] *)
Definition storage_save (memory : Memory.t) : M unit :=
  log_storage_call (call_save memory) ;;;
  fun w => set_storage (InMemoryBackend.save memory (storage w)) w.

Definition _save_with_retry (memory : Memory.t) : M unit :=
  with_retry (storage_save memory).

Definition resolve_tenant (tenant_id : option string) : string :=
  Py.or_default tenant_id (Settings.tenant_id (settings self)).

(** [not content or not content.strip()] *)
Definition is_blank (content : string) : bool :=
  negb (Py.truthy content) || negb (Py.truthy (Py.strip content)).

(** The values [save] draws from [uuid4] and from the clock: the new
    identifier, the two default timestamps of [Memory(...)], and the
    reading used by [set_ttl]. *)
Record SaveEnv := mkSaveEnv {
  new_id : UUID;
  now_created : datetime;
  now_updated : datetime;
  now_ttl : datetime
}.

Definition truthy_days (d : option Z) : option Z :=
  match d with
  | Some n => if n =? 0 then None else Some n
  | None => None
  end.

Definition save (env : SaveEnv) (content : string)
    (metadata : option MemoryMetadata.t) (tenant_id : option string)
    (generate_embedding : bool) (ttl_days : option Z) : M Memory.t :=
  let tenant_id := resolve_tenant tenant_id in
  if is_blank content
  then raise (InvalidMemoryError "Memory content cannot be empty" "content")
  else
    memory <-
      lift (Memory.new (new_id env) (now_created env) (now_updated env)
              (Py.strip content)
              (match metadata with Some md => md | None => MemoryMetadata.default end)
              tenant_id) ;;
    memory <-
      lift (match truthy_days ttl_days with
            | Some d => Memory.set_ttl (now_ttl env) d memory
            | None =>
                match truthy_days
                        (Settings.default_ttl_days (settings self)) with
                | Some d => Memory.set_ttl (now_ttl env) d memory
                | None => Ok memory
                end
            end) ;;
    memory <-
      (if generate_embedding
       then
         try_except
           (e <- _generate_embedding_with_retry content ;;
            ret (Memory.set_embedding (Some e) memory))
           (fun _ => record (record_embedding "error") ;;; ret memory)
       else ret memory) ;;
    try_except
      (_save_with_retry memory ;;;
       record (record_operation "save" tenant_id "success"))
      (fun e => record (record_operation "save" tenant_id "error") ;;;
                raise e) ;;;
    publish (MemoryCreatedEvent memory) ;;;
    ret memory.

Definition get (memory_id : UUID) (tenant_id : option string)
  : M (option Memory.t) :=
  let tenant_id := resolve_tenant tenant_id in
  log_storage_call (call_get memory_id tenant_id) ;;;
  fun w =>
    let memory := InMemoryBackend.get memory_id tenant_id (storage w) in
    (record (record_operation "get" tenant_id
               (match memory with Some _ => "success" | None => "not_found" end)) ;;;
     ret memory) w.

Definition update (now : datetime) (memory_id : UUID)
    (content : option string) (metadata : option MemoryMetadata.t)
    (tenant_id : option string) : M Memory.t :=
  let tenant_id := resolve_tenant tenant_id in
  found <- get memory_id (Some tenant_id) ;;
  match found with
  | None =>
      raise (InvalidMemoryError
               (String.append "Memory "
                  (String.append (uuid_str memory_id) " not found")) "id")
  | Some memory =>
      let previous_version := Memory.version memory in
      memory <-
        (match content with
         | Some c =>
             if Py.truthy c then
               if negb (Py.truthy (Py.strip c))
               then raise (InvalidMemoryError
                             "Memory content cannot be empty" "content")
               else
                 let memory := Memory.set_content (Py.strip c) memory in
                 try_except
                   (e <- _generate_embedding_with_retry c ;;
                    ret (Memory.set_embedding (Some e) memory))
                   (fun _ => ret memory)
             else ret memory
         | None => ret memory
         end) ;;
      let memory :=
        match metadata with
        | Some md => Memory.set_metadata md memory
        | None => memory
        end in
      let memory :=
        if Settings.enable_versioning (settings self)
        then
          let changed_fields :=
            (if Py.truthy_opt content then ["content"] else [])
            ++ (match metadata with Some _ => ["metadata"] | None => [] end) in
          Memory.create_version now (Some changed_fields) memory
        else memory in
      try_except
        (_save_with_retry memory ;;;
         record (record_operation "update" tenant_id "success"))
        (fun e => record (record_operation "update" tenant_id "error") ;;;
                  raise e) ;;;
      publish (MemoryUpdatedEvent memory previous_version) ;;;
      ret memory
  end.

Definition delete (memory_id : UUID) (tenant_id : option string) : M unit :=
  let tenant_id := resolve_tenant tenant_id in
  log_storage_call (call_delete memory_id tenant_id) ;;;
  (fun w => set_storage
              (InMemoryBackend.delete memory_id tenant_id (storage w)) w) ;;;
  record (record_operation "delete" tenant_id "success") ;;;
  publish (MemoryDeletedEvent memory_id tenant_id).

Definition list_ (tenant_id : option string) (limit offset : Z)
    (filters : option Filters.t) : M (list Memory.t) :=
  let tenant_id := resolve_tenant tenant_id in
  log_storage_call (call_list tenant_id limit offset) ;;;
  fun w =>
    ret (InMemoryBackend.list_ tenant_id limit offset filters (storage w)) w.

Definition count (tenant_id : option string) (filters : option Filters.t)
  : M nat :=
  let tenant_id := resolve_tenant tenant_id in
  log_storage_call (call_count tenant_id) ;;;
  fun w => ret (InMemoryBackend.count tenant_id filters (storage w)) w.

(** [close]: [await self.storage.close()] *)
Definition close : M unit :=
  fun w => set_storage (InMemoryBackend.close (storage w)) w.

(** [not query or not query.strip()] is the test [is_blank] again.
    [search]; [pow_half] is the platform's [x ** 0.5] of the backend. *)
Definition search (pow_half : float -> float) (query : string)
    (tenant_id : option string) (limit : Z) (filters : option Filters.t)
  : M (list SearchResult.t) :=
  let tenant_id := resolve_tenant tenant_id in
  if is_blank query
  then raise (InvalidQueryError "Query cannot be empty" query)
  else
    try_except
      (query_embedding <- _generate_embedding_with_retry query ;;
       log_storage_call (call_search query_embedding tenant_id limit) ;;;
       results <-
         (fun w => lift (InMemoryBackend.search pow_half query_embedding
                           tenant_id limit filters (storage w)) w) ;;
       record (record_operation "search" tenant_id "success") ;;;
       record (record_search tenant_id) ;;;
       publish (MemorySearchedEvent query (length results) tenant_id) ;;;
       ret results)
      (fun e => record (record_operation "search" tenant_id "error") ;;;
                raise e).
End Manager.
End MemoryManager.

(** ** Health ([memorycore/observability/health.py]) *)

Module HealthChecker.

(** What a component's [health_check] gives: an exception, or a dictionary
    whose ["status"] entry, when there is one, is the given string. *)
Definition ComponentHealth := result (option string).

Definition is_healthy (status : option string) : bool :=
  match status with
  | Some s => String.eqb s "healthy"
  | None => false
  end.

(** The ["status"] entry of the dictionary that [check_health] returns. *)
Definition check_health (storage embedding : ComponentHealth) : string :=
  let status := "healthy" in
  let status :=
    match storage with
    | Ok storage_health =>
        if negb (is_healthy storage_health) then "degraded" else status
    | Raise _ => "unhealthy"
    end in
  match embedding with
  | Ok embedding_health =>
      if negb (is_healthy embedding_health) && String.eqb status "healthy"
      then "degraded" else status
  | Raise _ =>
      if String.eqb status "healthy" then "unhealthy" else status
  end.

End HealthChecker.

(** ** Vocabulary of the properties *)


(** The state-changing operations of the backend, and histories of them. *)
Inductive BackendOp : Type :=
| op_save (memory : Memory.t)
| op_delete (memory_id : UUID) (tenant_id : string)
| op_close.

Definition apply_op (s : InMemoryBackend.t) (op : BackendOp)
  : InMemoryBackend.t :=
  match op with
  | op_save m => InMemoryBackend.save m s
  | op_delete i t => InMemoryBackend.delete i t s
  | op_close => InMemoryBackend.close s
  end.

Definition run_ops (ops : list BackendOp) (s : InMemoryBackend.t)
  : InMemoryBackend.t :=
  fold_left apply_op ops s.

(** Every memory is filed under its own identifier and tenant. *)
Definition entry_wf (e : InMemoryBackend.key * Memory.t) : Prop :=
  fst e = (Memory.id (snd e), Memory.tenant_id (snd e)).

Definition store_wf (s : InMemoryBackend.t) : Prop :=
  Forall entry_wf (InMemoryBackend._memories s).

(** The entries of one tenant. *)
Definition tenant_entries (B : string)
    (d : list (InMemoryBackend.key * Memory.t))
  : list (InMemoryBackend.key * Memory.t) :=
  List.filter (fun '((_, tenant), _) => String.eqb tenant B) d.

(** One [update] request: the clock reading and the two optional fields. *)
Record UpdateRequest := mkUpdateRequest {
  req_now : datetime;
  req_content : option string;
  req_metadata : option MemoryMetadata.t
}.

(** Consecutive calls of [update] on one identifier; the run stops at the
    first call that raises. *)
Fixpoint run_updates (self : MemoryManager.t) (memory_id : UUID)
    (tenant_id : option string) (reqs : list UpdateRequest)
  : MemoryManager.M (list Memory.t) :=
  match reqs with
  | [] => MemoryManager.ret []
  | r :: reqs' =>
      MemoryManager.bind
        (MemoryManager.update self (req_now r) memory_id
           (req_content r) (req_metadata r) tenant_id)
        (fun m =>
           MemoryManager.bind
             (run_updates self memory_id tenant_id reqs')
             (fun ms => MemoryManager.ret (m :: ms)))
  end.

(** [len(versions) == version - 1] *)
Definition versions_match (m : Memory.t) : Prop :=
  Z.of_nat (length (Memory.versions m)) = Z.pos (Memory.version m) - 1.

(** Two backends that hold the same entries for tenant [B]. *)
Definition same_view (B : string) (s1 s2 : InMemoryBackend.t) : Prop :=
  tenant_entries B (InMemoryBackend._memories s1)
  = tenant_entries B (InMemoryBackend._memories s2).

(** The metrics a call adds when a collector is present. *)
Definition recorded (self : MemoryManager.t)
    (calls : list MemoryManager.MetricCall) : list MemoryManager.MetricCall :=
  if MemoryManager.has_metrics self then calls else [].

(** The world after the manager's [get]: one more call on the backend and
    one more metric, nothing else. *)
Definition after_get (self : MemoryManager.t) (memory_id : UUID)
    (tenant_id : string) (w : MemoryManager.World) : MemoryManager.World :=
  MemoryManager.mkWorld
    (MemoryManager.storage w)
    (MemoryManager.storage_calls w ++ [MemoryManager.call_get memory_id tenant_id])
    (MemoryManager.embed_calls w)
    (MemoryManager.metrics w
     ++ recorded self
          [MemoryManager.record_operation "get" tenant_id
             (match InMemoryBackend.get memory_id tenant_id
                      (MemoryManager.storage w) with
              | Some _ => "success"
              | None => "not_found"
              end)])
    (MemoryManager.published w).

(** Sample data for the examples: a memory with default fields. *)
Definition sample_memory (i : UUID) (tenant : string) (e : option vector)
  : Memory.t :=
  Memory.mk i "note" MemoryMetadata.default e tenant 0 0 None [] [] 1.

Definition sample_manager (versioning : bool) : MemoryManager.t :=
  MemoryManager.mk (Settings.mk "default" None versioning)
                   (fun _ _ => Ok [1%float; 0%float]) true.

Definition sample_env : MemoryManager.SaveEnv :=
  MemoryManager.mkSaveEnv 7%N 100 100 100.

(** The parts of the world the embedding service cannot touch. *)
Definition backend_untouched (w w1 : MemoryManager.World) : Prop :=
  MemoryManager.storage w1 = MemoryManager.storage w /\
  MemoryManager.storage_calls w1 = MemoryManager.storage_calls w /\
  MemoryManager.published w1 = MemoryManager.published w.

(** The fields [update] never assigns before versioning. *)
Definition same_history (m1 m : Memory.t) : Prop :=
  Memory.id m1 = Memory.id m /\ Memory.tenant_id m1 = Memory.tenant_id m /\
  Memory.version m1 = Memory.version m /\
  Memory.versions m1 = Memory.versions m.

(** The [changed_fields] that [update] hands to [create_version]. *)
Definition changed_fields_of (content : option string)
    (metadata : option MemoryMetadata.t) : list string :=
  (if Py.truthy_opt content then ["content"] else [])
  ++ (match metadata with Some _ => ["metadata"] | None => [] end).

(** [m'] is one version ahead of [m]: its history is the history of [m]
    followed by one record, numbered with the version of [m]. *)
Definition one_more_version (m m' : Memory.t) : Prop :=
  Memory.version m' = (Memory.version m + 1)%positive /\
  exists r,
    Memory.versions m' = Memory.versions m ++ [r] /\
    MemoryVersion.version r = Memory.version m.

(** Each memory of the list is one version ahead of its predecessor. *)
Fixpoint version_steps (prev : Memory.t) (ms : list Memory.t) : Prop :=
  match ms with
  | [] => True
  | m :: ms' => one_more_version prev m /\ version_steps m ms'
  end.

(** No two entries of a dictionary of the backend share a key. *)
Definition unique_keys (s : InMemoryBackend.t) : Prop :=
  List.NoDup (PyDict.keys (InMemoryBackend._memories s)) /\
  List.NoDup (PyDict.keys (InMemoryBackend._embeddings s)).

(** A float that is not NaN compares equal to itself. *)
Definition not_nan (x : float) : bool := (x =? x)%float.

(** Each result scores at most what the result before it scores. *)
Fixpoint descending (l : list SearchResult.t) : Prop :=
  match l with
  | [] => True
  | x :: l' =>
      match l' with
      | [] => True
      | y :: _ => (SearchResult.score y <=? SearchResult.score x)%float = true
      end /\ descending l'
  end.

(** No result carries a NaN score. *)
Definition scores_not_nan (l : list SearchResult.t) : Prop :=
  List.Forall (fun r => not_nan (SearchResult.score r) = true) l.

(** The targets of a memory's relationships, in order. *)
Definition relationship_targets (m : Memory.t) : list UUID :=
  map MemoryRelationship.target_id (Memory.relationships m).

(** [self._handlers.get(event_type, [])] *)
Definition handlers_for (event_type : string) (bus : SimpleEventBus.t)
  : list EventHandler :=
  match SimpleEventBus._handlers bus !! event_type with
  | Some l => l
  | None => []
  end.

(** A component reported the status ["healthy"]. *)
Definition component_ok (h : HealthChecker.ComponentHealth) : bool :=
  match h with
  | Ok status => HealthChecker.is_healthy status
  | Raise _ => false
  end.

Definition component_raised (h : HealthChecker.ComponentHealth) : bool :=
  match h with
  | Ok _ => false
  | Raise _ => true
  end.




(** [now + days] can be formed: [days] fits a [timedelta] and the sum is
    a [datetime]. *)
Definition ttl_in_range (now : datetime) (days : Z) : bool :=
  (Z.abs days <=? 999999999)
  && (0 <=? now + days * 86400000000)
  && (now + days * 86400000000 <=? 315537897599999999).

(** What [save] does once the number of days [d] of the expiry is chosen:
    when the expiry can be formed the memory saved expires then, and
    otherwise [save] raises [OverflowError] before anything else
    happens. *)
Definition save_with_ttl (self : MemoryManager.t)
    (env : MemoryManager.SaveEnv) (content : string)
    (metadata : option MemoryMetadata.t) (tenant_id : option string)
    (generate_embedding : bool) (ttl_days : option Z)
    (w : MemoryManager.World) (d : Z) : Prop :=
  (ttl_in_range (MemoryManager.now_ttl env) d = true ->
   exists m w',
     MemoryManager.save self env content metadata tenant_id
       generate_embedding ttl_days w = (Ok m, w') /\
     Memory.expires_at m
     = Some (MemoryManager.now_ttl env + d * 86400000000)) /\
  (ttl_in_range (MemoryManager.now_ttl env) d = false ->
   MemoryManager.save self env content metadata tenant_id
     generate_embedding ttl_days w = (Raise OverflowError, w)).

(** Three attempts of a call, as [@retry(stop=stop_after_attempt(3),
    reraise=True)] makes them: the first success, or else the third
    failure; and the number of attempts made. *)
Definition first_of_three {A} (a0 a1 a2 : result A) : result A :=
  match a0 with
  | Ok v => Ok v
  | Raise _ => match a1 with Ok v => Ok v | Raise _ => a2 end
  end.

Definition attempts_made {A} (a0 a1 : result A) : nat :=
  match a0 with
  | Ok _ => 1
  | Raise _ => match a1 with Ok _ => 2 | Raise _ => 3 end
  end.

(** * Properties *)

(** ** Dictionaries *)

Section DictFacts.
Context {K V : Type} `{EqDecision K}.
Implicit Types (k : K) (v : V) (d : list (K * V)).

Lemma dict_get_set_eq k v d : PyDict.get k (PyDict.set k v d) = Some v.
Proof.
  induction d as [|[k' v'] d IH]; simpl.
  - destruct (decide (k = k)); congruence.
  - destruct (decide (k' = k)) as [->|Hne]; simpl.
    + destruct (decide (k = k)); congruence.
    + destruct (decide (k' = k)); [contradiction|exact IH].
Qed.

Lemma dict_get_set_ne k k' v d :
  k <> k' -> PyDict.get k' (PyDict.set k v d) = PyDict.get k' d.
Proof.
  intros Hne. induction d as [|[k0 v0] d IH]; simpl.
  - destruct (decide (k = k')); [contradiction|reflexivity].
  - destruct (decide (k0 = k)) as [->|Hk]; simpl.
    + destruct (decide (k = k')); [contradiction|reflexivity].
    + destruct (decide (k0 = k')); [reflexivity|exact IH].
Qed.

Lemma dict_set_In k v d x :
  In x (PyDict.set k v d) -> x = (k, v) \/ In x d.
Proof.
  induction d as [|[k0 v0] d IH]; simpl.
  - intros [<-|[]]. now left.
  - destruct (decide (k0 = k)) as [->|Hk]; simpl.
    + intros [<-|Hx]; auto.
    + intros [<-|Hx]; auto. destruct (IH Hx); auto.
Qed.

Lemma dict_pop_In k d x : In x (PyDict.pop k d) -> In x d.
Proof.
  induction d as [|[k0 v0] d IH]; simpl; [tauto|].
  destruct (decide (k0 = k)); simpl; intuition.
Qed.
End DictFacts.

(** ** Tenant views of the backend *)

Section TenantViews.
Implicit Types (d : list (InMemoryBackend.key * Memory.t)) (B : string).

Lemma tenant_entries_set_other B i t m d :
  t <> B ->
  tenant_entries B (PyDict.set (i, t) m d) = tenant_entries B d.
Proof.
  intros Hne. apply String.eqb_neq in Hne.
  induction d as [|[[i0 t0] m0] d IH]; simpl.
  - now rewrite Hne.
  - destruct (decide ((i0, t0) = (i, t))) as [Heq|Hk]; simpl.
    + inversion Heq; subst. now rewrite Hne.
    + destruct (String.eqb t0 B); [f_equal|]; exact IH.
Qed.

Lemma tenant_entries_set_same B i m d :
  tenant_entries B (PyDict.set (i, B) m d)
  = PyDict.set (i, B) m (tenant_entries B d).
Proof.
  induction d as [|[[i0 t0] m0] d IH]; simpl.
  - now rewrite String.eqb_refl.
  - destruct (decide ((i0, t0) = (i, B))) as [Heq|Hk]; simpl.
    + inversion Heq; subst. rewrite String.eqb_refl. simpl.
      destruct (decide ((i, B) = (i, B))); congruence.
    + destruct (String.eqb t0 B) eqn:Ht; simpl.
      * destruct (decide ((i0, t0) = (i, B))); [contradiction|].
        now rewrite IH.
      * exact IH.
Qed.

Lemma tenant_entries_pop_other B i t d :
  t <> B ->
  tenant_entries B (PyDict.pop (i, t) d) = tenant_entries B d.
Proof.
  intros Hne. apply String.eqb_neq in Hne.
  induction d as [|[[i0 t0] m0] d IH]; simpl; [reflexivity|].
  destruct (decide ((i0, t0) = (i, t))) as [Heq|Hk]; simpl.
  - inversion Heq; subst. now rewrite Hne.
  - destruct (String.eqb t0 B); [f_equal|]; exact IH.
Qed.

Lemma tenant_entries_pop_same B i d :
  tenant_entries B (PyDict.pop (i, B) d)
  = PyDict.pop (i, B) (tenant_entries B d).
Proof.
  induction d as [|[[i0 t0] m0] d IH]; simpl; [reflexivity|].
  destruct (decide ((i0, t0) = (i, B))) as [Heq|Hk]; simpl.
  - inversion Heq; subst. rewrite String.eqb_refl. simpl.
    destruct (decide ((i, B) = (i, B))); congruence.
  - destruct (String.eqb t0 B) eqn:Ht; simpl.
    + destruct (decide ((i0, t0) = (i, B))); [contradiction|].
      now rewrite IH.
    + exact IH.
Qed.

Lemma get_tenant_entries B i d :
  PyDict.get (i, B) d = PyDict.get (i, B) (tenant_entries B d).
Proof.
  induction d as [|[[i0 t0] m0] d IH]; simpl; [reflexivity|].
  destruct (decide ((i0, t0) = (i, B))) as [Heq|Hk].
  - inversion Heq; subst. rewrite String.eqb_refl. simpl.
    destruct (decide ((i, B) = (i, B))); congruence.
  - destruct (String.eqb t0 B) eqn:Ht; simpl; [|exact IH].
    destruct (decide ((i0, t0) = (i, B))); [contradiction|exact IH].
Qed.

Lemma tenant_entries_In B d k m :
  In (k, m) (tenant_entries B d) -> In (k, m) d /\ snd k = B.
Proof.
  unfold tenant_entries. rewrite filter_In. destruct k as [i t]. simpl.
  intros [Hin Ht]. apply String.eqb_eq in Ht. auto.
Qed.
End TenantViews.

Lemma same_view_apply_op B op s1 s2 :
  same_view B s1 s2 -> same_view B (apply_op s1 op) (apply_op s2 op).
Proof.
  unfold same_view. intros Hv. destruct op as [m|i t|]; simpl.
  - destruct (string_dec (Memory.tenant_id m) B) as [<-|Hne].
    + now rewrite !tenant_entries_set_same, Hv.
    + now rewrite !tenant_entries_set_other.
  - destruct (string_dec t B) as [->|Hne].
    + now rewrite !tenant_entries_pop_same, Hv.
    + now rewrite !tenant_entries_pop_other.
  - reflexivity.
Qed.

Lemma same_view_run_ops B ops : forall s1 s2,
  same_view B s1 s2 -> same_view B (run_ops ops s1) (run_ops ops s2).
Proof.
  induction ops as [|op ops IH]; intros s1 s2 Hv; simpl; [exact Hv|].
  apply IH, same_view_apply_op, Hv.
Qed.

Lemma same_view_save_other B m s :
  Memory.tenant_id m <> B -> same_view B (InMemoryBackend.save m s) s.
Proof.
  intros Hne. unfold same_view. simpl. now apply tenant_entries_set_other.
Qed.

Lemma of_tenant_view B s :
  InMemoryBackend.of_tenant B s
  = map snd (tenant_entries B (InMemoryBackend._memories s)).
Proof. reflexivity. Qed.

Lemma same_view_observations pow_half B s1 s2 :
  same_view B s1 s2 ->
  (forall i, InMemoryBackend.get i B s1 = InMemoryBackend.get i B s2) /\
  (forall limit offset f,
      InMemoryBackend.list_ B limit offset f s1
      = InMemoryBackend.list_ B limit offset f s2) /\
  (forall q limit f,
      InMemoryBackend.search pow_half q B limit f s1
      = InMemoryBackend.search pow_half q B limit f s2) /\
  (forall f, InMemoryBackend.count B f s1 = InMemoryBackend.count B f s2).
Proof.
  intros Hv. repeat split; intros.
  - unfold InMemoryBackend.get.
    rewrite (get_tenant_entries B i (InMemoryBackend._memories s1)),
            (get_tenant_entries B i (InMemoryBackend._memories s2)).
    now rewrite Hv.
  - unfold InMemoryBackend.list_. now rewrite !of_tenant_view, Hv.
  - unfold InMemoryBackend.search. now rewrite !of_tenant_view, Hv.
  - unfold InMemoryBackend.count. now rewrite !of_tenant_view, Hv.
Qed.

(** ** Well-formed stores *)

Lemma dict_get_In {K V} `{EqDecision K} (k : K) (v : V) (d : list (K * V)) :
  PyDict.get k d = Some v -> In (k, v) d.
Proof.
  induction d as [|[k0 v0] d IH]; simpl; [discriminate|].
  destruct (decide (k0 = k)) as [->|Hk].
  - intros [= ->]. now left.
  - intros Hg. right. exact (IH Hg).
Qed.

Lemma store_wf_init : store_wf InMemoryBackend.init.
Proof. constructor. Qed.

Lemma store_wf_save m s : store_wf s -> store_wf (InMemoryBackend.save m s).
Proof.
  unfold store_wf. rewrite !List.Forall_forall. intros Hwf x Hx. simpl in Hx.
  apply dict_set_In in Hx as [->|Hx]; [reflexivity|exact (Hwf x Hx)].
Qed.

Lemma store_wf_delete i t s :
  store_wf s -> store_wf (InMemoryBackend.delete i t s).
Proof.
  unfold store_wf. rewrite !List.Forall_forall. intros Hwf x Hx. simpl in Hx.
  apply dict_pop_In in Hx. exact (Hwf x Hx).
Qed.

Lemma store_wf_apply_op op s : store_wf s -> store_wf (apply_op s op).
Proof.
  destruct op; simpl;
    auto using store_wf_save, store_wf_delete, store_wf_init.
Qed.

Lemma store_wf_run_ops ops : forall s, store_wf s -> store_wf (run_ops ops s).
Proof.
  induction ops as [|op ops IH]; intros s Hwf; simpl; [exact Hwf|].
  apply IH, store_wf_apply_op, Hwf.
Qed.

Lemma of_tenant_tenant_id B s m :
  store_wf s -> In m (InMemoryBackend.of_tenant B s) -> Memory.tenant_id m = B.
Proof.
  intros Hwf Hin. rewrite of_tenant_view in Hin.
  apply in_map_iff in Hin as [[k m'] [Hm Hin]]. simpl in Hm. subst m'.
  apply tenant_entries_In in Hin as [Hin Hk].
  unfold store_wf in Hwf. rewrite List.Forall_forall in Hwf.
  specialize (Hwf _ Hin). unfold entry_wf in Hwf. simpl in Hwf.
  rewrite Hwf in Hk. exact Hk.
Qed.

Lemma get_tenant_id i B s m :
  store_wf s -> InMemoryBackend.get i B s = Some m -> Memory.tenant_id m = B.
Proof.
  intros Hwf Hg. apply dict_get_In in Hg.
  unfold store_wf in Hwf. rewrite List.Forall_forall in Hwf.
  specialize (Hwf _ Hg). unfold entry_wf in Hwf. simpl in Hwf. congruence.
Qed.

(** ** What the queries return comes from the tenant's memories *)

Lemma firstn_In_list {A} (n : nat) (l : list A) x : In x (firstn n l) -> In x l.
Proof.
  intros Hin. rewrite <- (firstn_skipn n l). apply in_or_app. now left.
Qed.

Lemma skipn_In_list {A} (n : nat) (l : list A) x : In x (skipn n l) -> In x l.
Proof.
  intros Hin. rewrite <- (firstn_skipn n l). apply in_or_app. now right.
Qed.

Lemma slice_In {A} (l : list A) a b x : In x (Py.slice l a b) -> In x l.
Proof.
  unfold Py.slice. intros Hin.
  eapply skipn_In_list, firstn_In_list, Hin.
Qed.

Lemma slice_to_In {A} (l : list A) n x : In x (Py.slice_to l n) -> In x l.
Proof. apply firstn_In_list. Qed.

Lemma insert_desc_In x y l :
  In x (InMemoryBackend.insert_desc y l) <-> x = y \/ In x l.
Proof.
  induction l as [|z l IH]; simpl; [intuition|].
  destruct (SearchResult.score y <? SearchResult.score z)%float; simpl;
    [rewrite IH|]; intuition.
Qed.

Lemma sort_desc_In x l : In x (InMemoryBackend.sort_desc l) <-> In x l.
Proof.
  induction l as [|y l IH]; simpl; [tauto|].
  rewrite insert_desc_In, IH. intuition.
Qed.

Lemma insert_desc_length y l :
  length (InMemoryBackend.insert_desc y l) = S (length l).
Proof.
  induction l as [|z l IH]; simpl; [reflexivity|].
  destruct (SearchResult.score y <? SearchResult.score z)%float; simpl;
    [now rewrite IH|reflexivity].
Qed.

Lemma sort_desc_length l : length (InMemoryBackend.sort_desc l) = length l.
Proof.
  induction l as [|y l IH]; simpl; [reflexivity|].
  now rewrite insert_desc_length, IH.
Qed.

Lemma scored_In pow_half q l : forall scored r,
  rmapM (InMemoryBackend.score_one pow_half q) l = Ok scored ->
  In r (omap (fun o => o) scored) -> In (SearchResult.memory r) l.
Proof.
  induction l as [|m l IH]; simpl; intros scored r.
  - intros [= <-]. simpl. tauto.
  - unfold rbind at 1.
    destruct (InMemoryBackend.score_one pow_half q m) as [o|e] eqn:Ho;
      [|discriminate].
    unfold rbind at 1.
    destruct (rmapM (InMemoryBackend.score_one pow_half q) l) as [ys|e] eqn:Hys;
      [|discriminate].
    intros [= <-] Hin. simpl in Hin.
    unfold InMemoryBackend.score_one in Ho.
    destruct (Memory.embedding_truthy m) as [e|].
    + destruct (InMemoryBackend._cosine_similarity pow_half q e) as [sc|err];
        simpl in Ho; [|discriminate].
      injection Ho as <-. simpl in Hin.
      destruct Hin as [<-|Hin]; [now left|right; eauto].
    + injection Ho as <-. simpl in Hin. right. eauto.
Qed.

Lemma search_In pow_half q B limit f s rs r :
  InMemoryBackend.search pow_half q B limit f s = Ok rs ->
  In r rs -> In (SearchResult.memory r) (InMemoryBackend.of_tenant B s).
Proof.
  unfold InMemoryBackend.search, rbind.
  destruct (rmapM _ _) as [scored|e] eqn:Hs; [|discriminate].
  intros [= <-] Hin.
  apply slice_to_In in Hin. apply (proj1 (sort_desc_In _ _)) in Hin.
  eapply scored_In; [exact Hs|].
  destruct (InMemoryBackend.filters_truthy f); [|exact Hin].
  unfold InMemoryBackend._apply_filters in Hin.
  now apply filter_In in Hin.
Qed.

Lemma list_In B limit offset f s m :
  In m (InMemoryBackend.list_ B limit offset f s) ->
  In m (InMemoryBackend.of_tenant B s).
Proof.
  unfold InMemoryBackend.list_. intros Hin. apply slice_In in Hin.
  destruct (InMemoryBackend.filters_truthy f); [|exact Hin].
  unfold InMemoryBackend._apply_filters_to_memories in Hin.
  now apply filter_In in Hin.
Qed.

(** ** C1: tenant isolation *)

(** C1.  A memory saved under tenant [A] is invisible to every other
    tenant [B]: whatever happened to the backend before the save and
    whatever happens after it, [get], [list], [search] and [count] issued
    with tenant [B] answer exactly as if the save had never taken place,
    and no answer contains the memory, also when the identifier asked for
    is the memory's own. *)
Theorem tenant_isolation (pow_half : float -> float)
    (before later : list BackendOp) (m : Memory.t) (B : string) :
  Memory.tenant_id m <> B ->
  let with_m :=
    run_ops later (InMemoryBackend.save m (run_ops before InMemoryBackend.init)) in
  let without := run_ops later (run_ops before InMemoryBackend.init) in
  (forall i, InMemoryBackend.get i B with_m = InMemoryBackend.get i B without) /\
  (forall limit offset f,
      InMemoryBackend.list_ B limit offset f with_m
      = InMemoryBackend.list_ B limit offset f without) /\
  (forall q limit f,
      InMemoryBackend.search pow_half q B limit f with_m
      = InMemoryBackend.search pow_half q B limit f without) /\
  (forall f, InMemoryBackend.count B f with_m = InMemoryBackend.count B f without) /\
  InMemoryBackend.get (Memory.id m) B with_m <> Some m /\
  (forall limit offset f, ~ In m (InMemoryBackend.list_ B limit offset f with_m)) /\
  (forall q limit f rs,
      InMemoryBackend.search pow_half q B limit f with_m = Ok rs ->
      ~ In m (map SearchResult.memory rs)).
Proof.
  intros HA with_m without.
  assert (Hview : same_view B with_m without).
  { apply same_view_run_ops, same_view_save_other, HA. }
  assert (Hwf : store_wf with_m).
  { apply store_wf_run_ops, store_wf_save, store_wf_run_ops, store_wf_init. }
  destruct (same_view_observations pow_half B with_m without Hview)
    as (Hget & Hlist & Hsearch & Hcount).
  repeat split; auto.
  - intros Hg. apply (get_tenant_id _ _ _ _ Hwf) in Hg. contradiction.
  - intros limit offset f Hin. apply list_In in Hin.
    apply (of_tenant_tenant_id _ _ _ Hwf) in Hin. contradiction.
  - intros q limit f rs Hs Hin.
    apply in_map_iff in Hin as [r [<- Hr]].
    apply (search_In _ _ _ _ _ _ _ _ Hs) in Hr.
    apply (of_tenant_tenant_id _ _ _ Hwf) in Hr. contradiction.
Qed.

(** ** C3: cosine similarity *)

Section FloatFacts.



End FloatFacts.

Section CosineSimilarity.
Variable pow_half : float -> float.
(** The platform's [pow] maps zero to zero. *)
Hypothesis pow_half_zero : pow_half 0%float = 0%float.


End CosineSimilarity.





(** The ranking example of the specification, with [sqrt] for [pow]. *)
Example cosine_similarity_examples :
  InMemoryBackend._cosine_similarity PrimFloat.sqrt [1; 0]%float [1; 0]%float
  = Ok 1%float /\
  InMemoryBackend._cosine_similarity PrimFloat.sqrt [1; 0]%float [0; 1]%float
  = Ok 0%float.
Proof. split; reflexivity. Qed.


(** ** Blank content *)

Lemma lstrip_all_space (s : string) :
  Py.all_space s = true -> Py.lstrip s = "".
Proof.
  induction s as [|c s IH]; simpl; [reflexivity|].
  intros H. apply andb_true_iff in H as [Hc Hs]. rewrite Hc. exact (IH Hs).
Qed.

Lemma rstrip_empty_all_space (s : string) :
  Py.rstrip s = "" -> Py.all_space s = true.
Proof.
  induction s as [|c s IH]; simpl; [reflexivity|].
  destruct (Py.rstrip s) eqn:Hr; [|discriminate].
  destruct (Py.is_space c); [|discriminate].
  intros _. simpl. exact (IH eq_refl).
Qed.

Lemma all_space_lstrip (s : string) :
  Py.all_space (Py.lstrip s) = true -> Py.all_space s = true.
Proof.
  induction s as [|c s IH]; simpl; [reflexivity|].
  destruct (Py.is_space c) eqn:Hc; simpl.
  - exact IH.
  - rewrite Hc. simpl. discriminate.
Qed.

Lemma strip_empty_iff (s : string) :
  Py.strip s = "" <-> Py.all_space s = true.
Proof.
  unfold Py.strip. split.
  - intros H. apply all_space_lstrip, rstrip_empty_all_space, H.
  - intros H. now rewrite lstrip_all_space.
Qed.

Lemma truthy_false_iff (s : string) : Py.truthy s = false <-> s = "".
Proof. destruct s; simpl; split; congruence. Qed.

(** [save] rejects exactly the contents made of white space only. *)
Lemma is_blank_iff (content : string) :
  MemoryManager.is_blank content = true <-> Py.all_space content = true.
Proof.
  unfold MemoryManager.is_blank. rewrite orb_true_iff, !negb_true_iff.
  rewrite !truthy_false_iff, strip_empty_iff. split.
  - intros [->|H]; [reflexivity|exact H].
  - auto.
Qed.

Lemma rstrip_idempotent (s : string) : Py.rstrip (Py.rstrip s) = Py.rstrip s.
Proof.
  induction s as [|c s IH]; simpl; [reflexivity|].
  destruct (Py.rstrip s) as [|c' r] eqn:Hr.
  - destruct (Py.is_space c) eqn:Hc; simpl; [reflexivity|now rewrite Hc].
  - simpl in IH |- *. now rewrite IH.
Qed.

Lemma lstrip_head (s : string) :
  Py.lstrip s = "" \/
  exists c t, Py.lstrip s = String c t /\ Py.is_space c = false.
Proof.
  induction s as [|c s IH]; simpl; [now left|].
  destruct (Py.is_space c) eqn:Hc; [exact IH|].
  right. now exists c, s.
Qed.

Lemma strip_idempotent (s : string) : Py.strip (Py.strip s) = Py.strip s.
Proof.
  unfold Py.strip.
  destruct (lstrip_head s) as [->|(c & t & -> & Hc)]; [reflexivity|].
  assert (Hl : Py.lstrip (Py.rstrip (String c t)) = Py.rstrip (String c t)).
  { simpl. destruct (Py.rstrip t); rewrite ?Hc; simpl; now rewrite Hc. }
  rewrite Hl. apply rstrip_idempotent.
Qed.

(** After the manager's own test, the validator of [Memory] never raises
    and trims nothing more. *)
Lemma new_after_strip (i : UUID) (t1 t2 : datetime) (content : string)
    (md : MemoryMetadata.t) (tenant : string) :
  MemoryManager.is_blank content = false ->
  Memory.new i t1 t2 (Py.strip content) md tenant
  = Ok (Memory.mk i (Py.strip content) md None tenant t1 t2 None [] [] 1).
Proof.
  unfold MemoryManager.is_blank, Memory.new, Memory.validate_content.
  intros H. apply orb_false_iff in H as [_ H].
  apply negb_false_iff in H.
  rewrite strip_idempotent, H.
  destruct (Py.strip content); [discriminate|reflexivity].
Qed.

(** ** C5: saving blank content *)

(** C5.  [save] called with a content that is empty or made of white space
    only raises [InvalidMemoryError] (a validation error) and leaves the
    world as it was: the backend is not written, no call reaches the
    backend or the embedding service, and no event is published. *)
Theorem save_blank_content_rejected (self : MemoryManager.t)
    (env : MemoryManager.SaveEnv) (content : string)
    (metadata : option MemoryMetadata.t) (tenant_id : option string)
    (generate_embedding : bool) (ttl_days : option Z)
    (w : MemoryManager.World) :
  Py.all_space content = true ->
  MemoryManager.save self env content metadata tenant_id
    generate_embedding ttl_days w
  = (Raise (InvalidMemoryError "Memory content cannot be empty" "content"), w)
  /\ error_class (InvalidMemoryError "Memory content cannot be empty" "content")
     = ValidationErrorClass.
Proof.
  intros Hblank. apply is_blank_iff in Hblank.
  unfold MemoryManager.save. rewrite Hblank. split; reflexivity.
Qed.

(** ** The manager's collaborator calls *)

Section ManagerFacts.
Variable self : MemoryManager.t.
Import MemoryManager.

Lemma resolve_tenant_idem (tenant_id : option string) :
  resolve_tenant self (Some (resolve_tenant self tenant_id))
  = resolve_tenant self tenant_id.
Proof.
  unfold resolve_tenant. destruct tenant_id as [s|]; simpl.
  - destruct (Py.truthy s) eqn:Hs; [now rewrite Hs|].
    now destruct (Py.truthy (Settings.tenant_id (settings self))).
  - now destruct (Py.truthy (Settings.tenant_id (settings self))).
Qed.

Lemma get_eq (memory_id : UUID) (tenant_id : option string) (w : World) :
  get self memory_id tenant_id w
  = (Ok (InMemoryBackend.get memory_id (resolve_tenant self tenant_id) (storage w)),
     after_get self memory_id (resolve_tenant self tenant_id) w).
Proof.
  unfold get, after_get, recorded, bind, log_storage_call, modify, record, ret.
  simpl. destruct (has_metrics self); simpl; [reflexivity|].
  now rewrite app_nil_r.
Qed.

Lemma save_with_retry_eq (memory : Memory.t) (w : World) :
  _save_with_retry memory w
  = (Ok tt,
     mkWorld (InMemoryBackend.save memory (storage w))
             (storage_calls w ++ [call_save memory])
             (embed_calls w) (metrics w) (published w)).
Proof. reflexivity. Qed.
End ManagerFacts.

Section UpdateFacts.
Variable self : MemoryManager.t.
Import MemoryManager.

Lemma get_after_save (m : Memory.t) (s : InMemoryBackend.t) :
  InMemoryBackend.get (Memory.id m) (Memory.tenant_id m)
    (InMemoryBackend.save m s) = Some m.
Proof. unfold InMemoryBackend.get. simpl. apply dict_get_set_eq. Qed.

Lemma get_key (i : UUID) (t : string) (s : InMemoryBackend.t) (m : Memory.t) :
  store_wf s -> InMemoryBackend.get i t s = Some m ->
  Memory.id m = i /\ Memory.tenant_id m = t.
Proof.
  intros Hwf Hg. apply dict_get_In in Hg.
  unfold store_wf in Hwf. rewrite List.Forall_forall in Hwf.
  specialize (Hwf _ Hg). unfold entry_wf in Hwf. simpl in Hwf.
  split; congruence.
Qed.

(** ** C6: updating an unknown identifier *)

(** C6 (amended).  [update] on an identifier that the resolved tenant
    does not hold raises [InvalidMemoryError] with field ["id"], an error
    of the validation class, after a single [get] on the backend: the
    backend is not written, the embedding service is not called and no
    event is published. *)
Theorem update_unknown_id (now : datetime) (memory_id : UUID)
    (content : option string) (metadata : option MemoryMetadata.t)
    (tenant_id : option string) (w : World) :
  InMemoryBackend.get memory_id (resolve_tenant self tenant_id) (storage w)
  = None ->
  let e := InvalidMemoryError
             (String.append "Memory "
                (String.append (uuid_str memory_id) " not found")) "id" in
  let w' := after_get self memory_id (resolve_tenant self tenant_id) w in
  update self now memory_id content metadata tenant_id w = (Raise e, w') /\
  error_class e = ValidationErrorClass /\
  storage w' = storage w /\
  storage_calls w'
  = storage_calls w ++ [call_get memory_id (resolve_tenant self tenant_id)] /\
  embed_calls w' = embed_calls w /\
  published w' = published w.
Proof.
  intros Hnone e w'. split; [|repeat split].
  unfold update, bind. rewrite get_eq, resolve_tenant_idem, Hnone.
  reflexivity.
Qed.

(** ** C10: an update that names no field *)

(** C10.  With versioning enabled, [update] called with neither content
    nor metadata on a stored memory still snapshots it: one version
    record with an empty [changed_fields] is appended, [version] grows by
    one, [updated_at] becomes the clock reading, the memory is written to
    the backend and an [updated] event carrying the previous version is
    published. *)
Theorem update_without_fields (now : datetime) (memory_id : UUID)
    (tenant_id : option string) (w : World) (m : Memory.t) :
  Settings.enable_versioning (settings self) = true ->
  store_wf (storage w) ->
  InMemoryBackend.get memory_id (resolve_tenant self tenant_id) (storage w)
  = Some m ->
  let t := resolve_tenant self tenant_id in
  let m' := Memory.create_version now (Some []) m in
  let w' :=
    mkWorld (InMemoryBackend.save m' (storage w))
            (storage_calls w ++ [call_get memory_id t; call_save m'])
            (embed_calls w)
            (metrics w
             ++ recorded self [record_operation "get" t "success";
                               record_operation "update" t "success"])
            (published w ++ [MemoryUpdatedEvent m' (Memory.version m)]) in
  update self now memory_id None None tenant_id w = (Ok m', w') /\
  Memory.versions m'
  = Memory.versions m
    ++ [MemoryVersion.mk (Memory.version m) (Memory.updated_at m)
                         (Memory.content m) []] /\
  Memory.version m' = (Memory.version m + 1)%positive /\
  Memory.updated_at m' = now /\
  InMemoryBackend.get memory_id t (storage w') = Some m'.
Proof.
  intros Hver Hwf Hget t m' w'.
  destruct (get_key _ _ _ _ Hwf Hget) as [Hid Hten].
  split; [|repeat split].
  - unfold update, bind. rewrite get_eq, resolve_tenant_idem.
    rewrite Hget, Hver. unfold ret. simpl.
    unfold try_except, record, modify, after_get, w', m', t, recorded.
    rewrite Hget.
    destruct (has_metrics self); simpl;
      rewrite <- ?app_assoc, ?app_nil_r; reflexivity.
  - unfold w', t. simpl storage. rewrite <- Hid, <- Hten.
    apply (get_after_save m').
Qed.
End UpdateFacts.

(** ** Updates and version history *)

Section VersioningFacts.
Variable self : MemoryManager.t.
Import MemoryManager.

Lemma retry_loop_untouched {A} (m : M A) :
  (forall w, backend_untouched w (snd (m w))) ->
  forall n w, backend_untouched w (snd (retry_loop n m w)).
Proof.
  intros Hm n. induction n as [|n IH]; intros w; simpl;
    specialize (Hm w); destruct (m w) as [[a|e] w1]; simpl in *; auto.
  destruct Hm as (H1 & H2 & H3).
  destruct (IH w1) as (K1 & K2 & K3).
  repeat split; congruence.
Qed.

Lemma generate_embedding_untouched (text : string) (w : World) :
  backend_untouched w (snd (_generate_embedding_with_retry self text w)).
Proof.
  unfold _generate_embedding_with_retry, with_retry.
  apply retry_loop_untouched. clear w. intros w.
  unfold bind, embed, record, modify, ret.
  destruct (embedding self (embed_calls w) text); simpl;
    [destruct (has_metrics self)|]; simpl; repeat split.
Qed.

Lemma same_history_refl m : same_history m m.
Proof. repeat split. Qed.

(** What a successful [update] of a stored memory [m] amounts to: some
    [m1] that differs from [m] in content, embedding and metadata at
    most is versioned (when enabled) and saved. *)
Lemma update_found (now : datetime) (memory_id : UUID)
    (content : option string) (metadata : option MemoryMetadata.t)
    (tenant_id : option string) (w w' : World) (m m' : Memory.t) :
  InMemoryBackend.get memory_id (resolve_tenant self tenant_id) (storage w)
  = Some m ->
  update self now memory_id content metadata tenant_id w = (Ok m', w') ->
  exists m1,
    same_history m1 m /\
    m' = (if Settings.enable_versioning (settings self)
          then Memory.create_version now
                 (Some (changed_fields_of content metadata)) m1
          else m1) /\
    storage w' = InMemoryBackend.save m' (storage w) /\
    published w'
    = published w ++ [MemoryUpdatedEvent m' (Memory.version m)].
Proof.
  intros Hget. unfold update.
  unfold bind at 1. rewrite get_eq, resolve_tenant_idem, Hget.
  set (w0 := after_get self memory_id (resolve_tenant self tenant_id) w).
  assert (Hs0 : storage w0 = storage w) by reflexivity.
  assert (Hp0 : published w0 = published w) by reflexivity.
  clearbody w0.
  unfold bind at 1.
  (* the content phase *)
  match goal with
  | |- context [match ?phase w0 with _ => _ end] =>
      assert (Hphase :
                (exists e, phase w0 = (Raise e, w0)) \/
                exists m1 w1, phase w0 = (Ok m1, w1) /\ same_history m1 m /\
                              storage w1 = storage w /\
                              published w1 = published w)
  end.
  { destruct content as [c|]; simpl.
    - destruct (Py.truthy c); simpl.
      + destruct (Py.truthy (Py.strip c)); simpl.
        * right. unfold try_except, bind.
          pose proof (generate_embedding_untouched c w0) as (U1 & U2 & U3).
          destruct (_generate_embedding_with_retry self c w0) as [[e|err] w1];
            simpl in *; do 2 eexists; (split; [reflexivity|]);
            repeat split; congruence.
        * left. eexists. reflexivity.
      + right. do 2 eexists. split; [reflexivity|].
        split; [apply same_history_refl|auto].
    - right. do 2 eexists. split; [reflexivity|].
      split; [apply same_history_refl|auto]. }
  destruct Hphase as [[e He]|(m1 & w1 & Hph & Hhist & Hs1 & Hp1)].
  - rewrite He. discriminate.
  - rewrite Hph. clear Hph.
    unfold bind, try_except. rewrite save_with_retry_eq. simpl.
    unfold record, modify, raise, publish, ret.
    set (m2 := match metadata with
               | Some md => Memory.set_metadata md m1
               | None => m1
               end).
    assert (Hh2 : same_history m2 m).
    { unfold m2. destruct metadata; [|exact Hhist].
      destruct Hhist as (? & ? & ? & ?). repeat split; assumption. }
    intros Hres. exists m2. split; [exact Hh2|].
    fold (changed_fields_of content metadata) in Hres.
    destruct (has_metrics self); simpl in Hres;
      injection Hres as <- <-; simpl; rewrite Hs1, Hp1; auto.
Qed.

Lemma last_cons {A} (l : list A) : forall a d,
  List.last (a :: l) d = List.last l a.
Proof.
  induction l as [|x l IH]; intros a d; [reflexivity|].
  change (List.last (a :: x :: l) d) with (List.last (x :: l) d).
  now rewrite !IH.
Qed.

Lemma update_found_versioned (now : datetime) (memory_id : UUID)
    (content : option string) (metadata : option MemoryMetadata.t)
    (tenant_id : option string) (w w' : World) (m m' : Memory.t) :
  Settings.enable_versioning (settings self) = true ->
  store_wf (storage w) ->
  InMemoryBackend.get memory_id (resolve_tenant self tenant_id) (storage w)
  = Some m ->
  update self now memory_id content metadata tenant_id w = (Ok m', w') ->
  one_more_version m m' /\
  store_wf (storage w') /\
  InMemoryBackend.get memory_id (resolve_tenant self tenant_id) (storage w')
  = Some m'.
Proof.
  intros Hver Hwf Hget Hupd.
  destruct (get_key _ _ _ _ Hwf Hget) as [Hid Hten].
  destruct (update_found _ _ _ _ _ _ _ _ _ Hget Hupd)
    as (m1 & (H1 & H2 & H3 & H4) & Hm' & Hst & _).
  rewrite Hver in Hm'. subst m'. rewrite Hst. split; [|split].
  - unfold one_more_version. simpl. rewrite H3, H4.
    split; [reflexivity|]. eexists. split; reflexivity.
  - apply store_wf_save, Hwf.
  - rewrite <- Hid, <- Hten, <- H1, <- H2.
    apply (get_after_save (Memory.create_version _ _ m1)).
Qed.

(** ** C2: versions under update *)

(** C2 (amended).  With versioning enabled, every successful [update] of
    a stored memory raises its [version] by exactly one and appends one
    version record to [versions], leaving the earlier records in place;
    so after N successful updates the version has grown by N, the history
    is the one before them followed by N records, and
    [len(versions) == version - 1] holds after them whenever it held
    before (as it does for every memory fresh from [save]). *)
Theorem versioned_updates (memory_id : UUID) (tenant_id : option string)
    (reqs : list UpdateRequest) :
  forall (w w' : World) (m0 : Memory.t) (ms : list Memory.t),
  Settings.enable_versioning (settings self) = true ->
  store_wf (storage w) ->
  InMemoryBackend.get memory_id (resolve_tenant self tenant_id) (storage w)
  = Some m0 ->
  run_updates self memory_id tenant_id reqs w = (Ok ms, w') ->
  let final := List.last ms m0 in
  length ms = length reqs /\
  version_steps m0 ms /\
  Z.pos (Memory.version final)
  = Z.pos (Memory.version m0) + Z.of_nat (length reqs) /\
  (exists records,
     Memory.versions final = Memory.versions m0 ++ records /\
     length records = length reqs) /\
  (versions_match m0 -> versions_match final) /\
  InMemoryBackend.get memory_id (resolve_tenant self tenant_id) (storage w')
  = Some final.
Proof.
  induction reqs as [|r reqs IH]; intros w w' m0 ms Hver Hwf Hget Hrun; simpl in Hrun.
  - injection Hrun as <- <-. simpl.
    split; [reflexivity|]. split; [exact I|]. split; [lia|].
    split; [exists []; now rewrite app_nil_r|]. split; [auto|exact Hget].
  - unfold bind at 1 in Hrun.
    destruct (update self (req_now r) memory_id (req_content r)
                (req_metadata r) tenant_id w) as [[m1|e] w1] eqn:Hupd;
      [|discriminate].
    destruct (update_found_versioned _ _ _ _ _ _ _ _ _ Hver Hwf Hget Hupd)
      as (Hone & Hwf1 & Hget1).
    unfold bind at 1 in Hrun.
    destruct (run_updates self memory_id tenant_id reqs w1)
      as [[ms1|e] w2] eqn:Hrest; [|discriminate].
    injection Hrun as <- <-.
    destruct (IH _ _ _ _ Hver Hwf1 Hget1 Hrest)
      as (Hlen & Hsteps & Hv & (records & Hrec & Hreclen) & Hmatch & Hfinal).
    assert (Hlast : List.last (m1 :: ms1) m0 = List.last ms1 m1).
    { apply last_cons. }
    cbv zeta. rewrite Hlast.
    pose proof Hone as [Hv1 (r1 & Hl1 & Hr1)].
    split; [simpl; now rewrite Hlen|].
    split; [split; [exact Hone|exact Hsteps]|].
    split; [rewrite Hv, Hv1; simpl length; lia|].
    split; [|split; [|exact Hfinal]].
    + exists (r1 :: records). split.
      * rewrite Hrec, Hl1, <- app_assoc. reflexivity.
      * simpl. now rewrite Hreclen.
    + intros Hm0. apply Hmatch. unfold versions_match in *.
      rewrite Hv1, Hl1, length_app. simpl length. lia.
Qed.
End VersioningFacts.

(** ** C7: version snapshots *)

(** C7.  [create_version] appends exactly one version record, holding the
    memory's current version number and content and timestamped with the
    memory's previous [updated_at]; it then raises [version] by one and
    sets [updated_at] to the clock reading.  No other field changes. *)
Theorem create_version_spec (now : datetime)
    (changed_fields : option (list string)) (m : Memory.t) :
  let m' := Memory.create_version now changed_fields m in
  Memory.versions m'
  = Memory.versions m
    ++ [MemoryVersion.mk (Memory.version m) (Memory.updated_at m)
          (Memory.content m)
          (match changed_fields with Some cf => cf | None => ["content"] end)] /\
  length (Memory.versions m') = S (length (Memory.versions m)) /\
  Memory.version m' = (Memory.version m + 1)%positive /\
  Memory.updated_at m' = now /\
  Memory.id m' = Memory.id m /\
  Memory.content m' = Memory.content m /\
  Memory.metadata m' = Memory.metadata m /\
  Memory.embedding m' = Memory.embedding m /\
  Memory.tenant_id m' = Memory.tenant_id m /\
  Memory.created_at m' = Memory.created_at m /\
  Memory.expires_at m' = Memory.expires_at m /\
  Memory.relationships m' = Memory.relationships m.
Proof.
  intros m'. unfold m', Memory.create_version. simpl.
  rewrite length_app. simpl.
  destruct changed_fields; repeat split; lia.
Qed.

(** ** C8: the backend after [close] *)

(** C8 (amended).  [close] empties the backend and nothing more: every
    later operation succeeds on the empty store.  [get] answers absence,
    [list] and [search] answer the empty list, [count] answers zero,
    [delete] changes nothing and [save] stores the memory. *)
Theorem operations_after_close (pow_half : float -> float)
    (s : InMemoryBackend.t) :
  let closed := InMemoryBackend.close s in
  closed = InMemoryBackend.init /\
  (forall i t, InMemoryBackend.get i t closed = None) /\
  (forall t limit offset f, InMemoryBackend.list_ t limit offset f closed = []) /\
  (forall q t limit f, InMemoryBackend.search pow_half q t limit f closed = Ok []) /\
  (forall t f, InMemoryBackend.count t f closed = 0%nat) /\
  (forall i t, InMemoryBackend.delete i t closed = closed) /\
  (forall m, InMemoryBackend.get (Memory.id m) (Memory.tenant_id m)
               (InMemoryBackend.save m closed) = Some m).
Proof.
  intros closed. unfold closed, InMemoryBackend.close. repeat split; intros.
  - unfold InMemoryBackend.list_, InMemoryBackend.of_tenant. simpl.
    destruct (InMemoryBackend.filters_truthy f); simpl;
      unfold Py.slice; simpl; rewrite skipn_nil; apply firstn_nil.
  - unfold InMemoryBackend.search, InMemoryBackend.of_tenant. simpl.
    destruct (InMemoryBackend.filters_truthy f); simpl;
      unfold Py.slice_to; simpl; f_equal; apply firstn_nil.
  - unfold InMemoryBackend.count, InMemoryBackend.of_tenant. simpl.
    now destruct (InMemoryBackend.filters_truthy f).
  - apply get_after_save.
Qed.

(** The claim of C8 fails: after [close], the manager's [get] returns
    absence, [search] returns the empty list and [save] stores, where an
    operation-class error was announced. *)
Lemma operations_after_close_do_not_fail :
  let self := sample_manager true in
  let w0 := snd (MemoryManager.save self sample_env "note" None None true None
                   MemoryManager.init_world) in
  let closed := snd (MemoryManager.close w0) in
  fst (MemoryManager.get self 7%N None w0)
  = Ok (Some (Memory.mk 7%N "note" MemoryMetadata.default
                (Some [1; 0]%float) "default" 100 100 None [] [] 1)) /\
  fst (MemoryManager.get self 7%N None closed) = Ok None /\
  InMemoryBackend.search PrimFloat.sqrt [1; 0]%float "default" 10 None
    (MemoryManager.storage closed) = Ok [] /\
  InMemoryBackend.count "default" None (MemoryManager.storage closed) = 0%nat /\
  (exists m, fst (MemoryManager.save self sample_env "again" None None true None
                    closed) = Ok m).
Proof.
  repeat split; try reflexivity. eexists. reflexivity.
Qed.

(** ** C9: unsubscribing *)

Lemma unsubscribe_unknown_type (event_type : string) (handler : EventHandler)
    (bus : SimpleEventBus.t) :
  SimpleEventBus._handlers bus !! event_type = None ->
  SimpleEventBus.unsubscribe event_type handler bus = Ok bus.
Proof. intros H. unfold SimpleEventBus.unsubscribe. now rewrite H. Qed.

Lemma list_remove_absent (handler : EventHandler) (l : list EventHandler) :
  existsb (Nat.eqb handler) l = false ->
  SimpleEventBus.list_remove handler l
  = Raise (ValueError "list.remove(x): x not in list").
Proof.
  induction l as [|y l IH]; simpl; [reflexivity|].
  intros H. apply orb_false_iff in H as [Hy Hl].
  rewrite Nat.eqb_sym, Hy, (IH Hl). reflexivity.
Qed.

(** What the code does for a handler that is not registered: nothing when
    the type has no list of handlers, [ValueError] when it has one. *)
Lemma unsubscribe_unregistered (event_type : string) (handler : EventHandler)
    (bus : SimpleEventBus.t) :
  SimpleEventBus.registered event_type handler bus = false ->
  SimpleEventBus.unsubscribe event_type handler bus
  = match SimpleEventBus._handlers bus !! event_type with
    | Some _ => Raise (ValueError "list.remove(x): x not in list")
    | None => Ok bus
    end.
Proof.
  unfold SimpleEventBus.registered, SimpleEventBus.unsubscribe.
  destruct (SimpleEventBus._handlers bus !! event_type) as [l|]; [|reflexivity].
  intros H. now rewrite (list_remove_absent _ _ H).
Qed.

(** C9.  The code at the failing input: once handler 1 is subscribed to
    ["memory.created"], unsubscribing handler 2, which is not registered,
    raises [ValueError]; and so does unsubscribing handler 1 a second
    time. *)
Theorem unsubscribe_unregistered_raises :
  let bus := SimpleEventBus.subscribe "memory.created" 1%nat SimpleEventBus.init in
  SimpleEventBus.registered "memory.created" 2%nat bus = false /\
  SimpleEventBus.unsubscribe "memory.created" 2%nat bus
  = Raise (ValueError "list.remove(x): x not in list") /\
  (exists bus', SimpleEventBus.unsubscribe "memory.created" 1%nat bus = Ok bus' /\
                SimpleEventBus.registered "memory.created" 1%nat bus' = false /\
                SimpleEventBus.unsubscribe "memory.created" 1%nat bus'
                = Raise (ValueError "list.remove(x): x not in list")).
Proof.
  cbv zeta. split; [reflexivity|]. split.
  - reflexivity.
  - eexists. split; [reflexivity|]. split; reflexivity.
Qed.

(** ** C4: truncation by [limit] *)

Lemma clamp_index_le (len : nat) (i : Z) : (Py.clamp_index len i <= len)%nat.
Proof. unfold Py.clamp_index. destruct (Z.ltb_spec i 0); lia. Qed.

Lemma slice_to_length {A} (l : list A) (n : Z) :
  length (Py.slice_to l n) = Py.clamp_index (length l) n.
Proof.
  unfold Py.slice_to. apply firstn_length_le, clamp_index_le.
Qed.

(** For a [limit] that is not negative the truncation is as announced. *)
Lemma search_limit_nonneg (pow_half : float -> float) (q : vector)
    (t : string) (limit : Z) (f : option Filters.t) (s : InMemoryBackend.t)
    (rs : list SearchResult.t) :
  0 <= limit ->
  InMemoryBackend.search pow_half q t limit f s = Ok rs ->
  Z.of_nat (length rs) <= limit /\ (limit = 0 -> rs = []).
Proof.
  intros Hlimit. unfold InMemoryBackend.search, rbind.
  destruct (rmapM _ _) as [scored|e]; [|discriminate].
  intros [= <-]. split.
  - rewrite slice_to_length. unfold Py.clamp_index.
    destruct (Z.ltb_spec limit 0); lia.
  - intros ->. apply List.length_zero_iff_nil.
    rewrite slice_to_length. unfold Py.clamp_index. simpl. lia.
Qed.

(** For a negative [limit] the slice [results[:limit]] drops the last
    [-limit] results and keeps the others. *)
Lemma search_limit_negative (pow_half : float -> float) (q : vector)
    (t : string) (limit : Z) (f : option Filters.t) (s : InMemoryBackend.t)
    (rs : list SearchResult.t) :
  limit < 0 ->
  InMemoryBackend.search pow_half q t limit f s = Ok rs ->
  exists all,
    InMemoryBackend.search pow_half q t (Z.of_nat (length all)) f s = Ok all /\
    Z.of_nat (length rs) = Z.max 0 (Z.of_nat (length all) + limit).
Proof.
  intros Hlimit. unfold InMemoryBackend.search, rbind.
  destruct (rmapM _ _) as [scored|e]; [|discriminate].
  intros [= <-].
  match goal with
  | |- context [Py.slice_to ?l limit] => set (all_results := l)
  end.
  exists all_results.
  split.
  - f_equal. unfold Py.slice_to, Py.clamp_index.
    destruct (Z.ltb_spec (Z.of_nat (length all_results)) 0); [lia|].
    rewrite Nat2Z.id, Nat.min_id. apply firstn_all.
  - rewrite slice_to_length. unfold Py.clamp_index.
    destruct (Z.ltb_spec limit 0); lia.
Qed.

(** C4.  The code at the failing input: three memories of tenant ["t"]
    with embeddings [[1,0]], [[0,1]], [[1,0]], query [[1,0]], [limit = -1].
    The search returns the two best results, where the empty result set
    (and at most [limit] results) was announced. *)
Theorem search_negative_limit_returns_results :
  let a := sample_memory 1%N "t" (Some [1; 0]%float) in
  let b := sample_memory 2%N "t" (Some [0; 1]%float) in
  let c := sample_memory 3%N "t" (Some [1; 0]%float) in
  let s := InMemoryBackend.save c
             (InMemoryBackend.save b
                (InMemoryBackend.save a InMemoryBackend.init)) in
  InMemoryBackend.search PrimFloat.sqrt [1; 0]%float "t" (-1) None s
  = Ok [SearchResult.mk a 1%float; SearchResult.mk c 1%float] /\
  InMemoryBackend.search PrimFloat.sqrt [1; 0]%float "t" 2 None s
  = Ok [SearchResult.mk a 1%float; SearchResult.mk c 1%float] /\
  InMemoryBackend.search PrimFloat.sqrt [1; 0]%float "t" 0 None s = Ok [].
Proof. repeat split. Qed.

(** ** Counterexamples to the claims as stated *)

(** The claim of C2 fails: with versioning disabled, a successful update
    leaves [version] at its previous value. *)
Lemma update_without_versioning_keeps_version :
  let self := sample_manager false in
  let w0 := snd (MemoryManager.save self sample_env "note" None None true None
                   MemoryManager.init_world) in
  InMemoryBackend.get 7%N "default" (MemoryManager.storage w0)
  = Some (Memory.mk 7%N "note" MemoryMetadata.default (Some [1; 0]%float)
            "default" 100 100 None [] [] 1) /\
  fst (MemoryManager.update self 200 7%N (Some "changed") None None w0)
  = Ok (Memory.mk 7%N "changed" MemoryMetadata.default (Some [1; 0]%float)
          "default" 100 100 None [] [] 1).
Proof. split; reflexivity. Qed.

(** The claim of C6 fails: the error raised for an unknown identifier is
    an [InvalidMemoryError], of the validation class, like the error for
    empty content; it is not of a not-found class. *)
Lemma update_unknown_id_is_validation_error :
  let self := sample_manager true in
  let e := InvalidMemoryError
             "Memory 00000000-0000-0000-0000-000000000009 not found" "id" in
  fst (MemoryManager.update self 0 9%N None None None MemoryManager.init_world)
  = Raise e /\
  error_class e = ValidationErrorClass /\
  is_not_found_class e = false /\
  fst (MemoryManager.save self sample_env "" None None true None
         MemoryManager.init_world)
  = Raise (InvalidMemoryError "Memory content cannot be empty" "content") /\
  error_class (InvalidMemoryError "Memory content cannot be empty" "content")
  = error_class e.
Proof. repeat split. Qed.

(** ** Instances on concrete data *)

Lemma tenant_isolation_witness :
  let mA := sample_memory 7%N "A" (Some [1; 0]%float) in
  let mB := sample_memory 7%N "B" (Some [0; 1]%float) in
  let with_m := InMemoryBackend.save mA
                  (InMemoryBackend.save mB InMemoryBackend.init) in
  Memory.tenant_id mA <> "B" /\
  InMemoryBackend.get 7%N "B" with_m = Some mB /\
  InMemoryBackend.list_ "B" 100 0 None with_m = [mB] /\
  InMemoryBackend.search PrimFloat.sqrt [1; 0]%float "B" 10 None with_m
  = Ok [SearchResult.mk mB 0%float] /\
  InMemoryBackend.count "B" None with_m = 1%nat /\
  InMemoryBackend.get 7%N "B" with_m <> Some mA.
Proof.
  intros mA mB with_m.
  assert (HA : Memory.tenant_id mA <> "B") by (simpl; discriminate).
  split; [exact HA|].
  destruct (tenant_isolation PrimFloat.sqrt [op_save mB] [] mA "B" HA)
    as (Hget & Hlist & Hsearch & Hcount & Hne & _).
  simpl in Hget, Hlist, Hsearch, Hcount, Hne. fold with_m in Hget, Hlist, Hsearch, Hcount, Hne.
  rewrite Hget, Hlist, Hsearch, Hcount.
  repeat split. exact Hne.
Defined.

Lemma save_blank_content_rejected_witness :
  Py.all_space "   " = true /\
  MemoryManager.save (sample_manager true) sample_env "   " None None true None
    MemoryManager.init_world
  = (Raise (InvalidMemoryError "Memory content cannot be empty" "content"),
     MemoryManager.init_world).
Proof.
  split; [reflexivity|].
  apply (save_blank_content_rejected (sample_manager true) sample_env "   "
           None None true None MemoryManager.init_world eq_refl).
Defined.

Lemma update_unknown_id_witness :
  InMemoryBackend.get 9%N "default"
    (MemoryManager.storage MemoryManager.init_world) = None /\
  fst (MemoryManager.update (sample_manager true) 0 9%N (Some "text") None None
         MemoryManager.init_world)
  = Raise (InvalidMemoryError
             "Memory 00000000-0000-0000-0000-000000000009 not found" "id").
Proof.
  split; [reflexivity|].
  destruct (update_unknown_id (sample_manager true) 0 9%N (Some "text") None
              None MemoryManager.init_world eq_refl) as [H _].
  rewrite H. reflexivity.
Defined.

Lemma store_wf_sample :
  store_wf (MemoryManager.storage
              (snd (MemoryManager.save (sample_manager true) sample_env "note"
                      None None true None MemoryManager.init_world))).
Proof. repeat constructor. Qed.

Lemma update_without_fields_witness :
  let self := sample_manager true in
  let w0 := snd (MemoryManager.save self sample_env "note" None None true None
                   MemoryManager.init_world) in
  let m := Memory.mk 7%N "note" MemoryMetadata.default (Some [1; 0]%float)
             "default" 100 100 None [] [] 1 in
  Settings.enable_versioning (MemoryManager.settings self) = true /\
  InMemoryBackend.get 7%N "default" (MemoryManager.storage w0) = Some m /\
  fst (MemoryManager.update self 200 7%N None None None w0)
  = Ok (Memory.mk 7%N "note" MemoryMetadata.default (Some [1; 0]%float)
          "default" 100 200 None []
          [MemoryVersion.mk 1 100 "note" []] 2).
Proof.
  intros self w0 m. split; [reflexivity|]. split; [reflexivity|].
  destruct (update_without_fields self 200 7%N None w0 m eq_refl
              store_wf_sample eq_refl) as [H _].
  rewrite H. reflexivity.
Defined.

Lemma versioned_updates_witness :
  let self := sample_manager true in
  let w0 := snd (MemoryManager.save self sample_env "note" None None true None
                   MemoryManager.init_world) in
  let m0 := Memory.mk 7%N "note" MemoryMetadata.default (Some [1; 0]%float)
              "default" 100 100 None [] [] 1 in
  let reqs := [mkUpdateRequest 200 (Some "second") None;
               mkUpdateRequest 300 None None] in
  Settings.enable_versioning (MemoryManager.settings self) = true /\
  InMemoryBackend.get 7%N "default" (MemoryManager.storage w0) = Some m0 /\
  versions_match m0 /\
  exists ms w',
    run_updates self 7%N None reqs w0 = (Ok ms, w') /\
    length ms = 2%nat /\
    Z.pos (Memory.version (List.last ms m0)) = 3 /\
    (exists records,
       Memory.versions (List.last ms m0) = Memory.versions m0 ++ records /\
       length records = 2%nat) /\
    versions_match (List.last ms m0).
Proof.
  intros self w0 m0 reqs.
  split; [reflexivity|]. split; [reflexivity|]. split; [reflexivity|].
  assert (Hrun : exists ms w', run_updates self 7%N None reqs w0 = (Ok ms, w'))
    by (do 2 eexists; vm_compute; reflexivity).
  destruct Hrun as (ms & w' & Hrun). exists ms, w'.
  destruct (versioned_updates self 7%N None reqs w0 w' m0 ms eq_refl
              store_wf_sample eq_refl Hrun)
    as (Hlen & _ & Hv & Hrec & Hmatch & _).
  split; [exact Hrun|]. split; [exact Hlen|]. split; [exact Hv|].
  split; [exact Hrec|].
  apply Hmatch. reflexivity.
Defined.


(** * Further properties of the backend *)

Section DictKeys.
Context {K V : Type} `{EqDecision K}.
Implicit Types (k : K) (v : V) (d : list (K * V)).

Lemma dict_get_None_keys k d :
  PyDict.get k d = None <-> ~ In k (PyDict.keys d).
Proof.
  induction d as [|[k0 v0] d IH]; simpl; [tauto|].
  destruct (decide (k0 = k)) as [->|Hne].
  - split; [discriminate|]. intros H'. exfalso. apply H'. now left.
  - rewrite IH. intuition.
Qed.

Lemma dict_keys_set k v d :
  PyDict.keys (PyDict.set k v d)
  = match PyDict.get k d with
    | Some _ => PyDict.keys d
    | None => PyDict.keys d ++ [k]
    end.
Proof.
  induction d as [|[k0 v0] d IH]; simpl; [reflexivity|].
  destruct (decide (k0 = k)) as [->|Hne]; simpl; [reflexivity|].
  rewrite IH. now destruct (PyDict.get k d).
Qed.

Lemma dict_length_set k v d :
  length (PyDict.set k v d)
  = match PyDict.get k d with
    | Some _ => length d
    | None => S (length d)
    end.
Proof.
  induction d as [|[k0 v0] d IH]; simpl; [reflexivity|].
  destruct (decide (k0 = k)) as [->|Hne]; simpl; [reflexivity|].
  rewrite IH. now destruct (PyDict.get k d).
Qed.

Lemma dict_keys_pop_incl k d x :
  In x (PyDict.keys (PyDict.pop k d)) -> In x (PyDict.keys d).
Proof.
  induction d as [|[k0 v0] d IH]; simpl; [tauto|].
  destruct (decide (k0 = k)); simpl; intuition.
Qed.

Lemma dict_NoDup_set k v d :
  List.NoDup (PyDict.keys d) -> List.NoDup (PyDict.keys (PyDict.set k v d)).
Proof.
  intros Hnd. rewrite dict_keys_set.
  destruct (PyDict.get k d) eqn:Hg; [exact Hnd|].
  apply dict_get_None_keys in Hg.
  apply List.NoDup_app; [exact Hnd|repeat constructor; simpl; tauto|].
  intros x Hx [<-|[]]. contradiction.
Qed.

Lemma dict_NoDup_pop k d :
  List.NoDup (PyDict.keys d) -> List.NoDup (PyDict.keys (PyDict.pop k d)).
Proof.
  induction d as [|[k0 v0] d IH]; simpl; [auto|].
  intros Hnd. apply List.NoDup_cons_iff in Hnd as [Hnin Hnd].
  destruct (decide (k0 = k)); simpl; [exact Hnd|].
  apply List.NoDup_cons; [|exact (IH Hnd)].
  intros Hin. apply Hnin. eapply dict_keys_pop_incl, Hin.
Qed.

Lemma dict_pop_absent k d : PyDict.get k d = None -> PyDict.pop k d = d.
Proof.
  induction d as [|[k0 v0] d IH]; simpl; [reflexivity|].
  destruct (decide (k0 = k)); [discriminate|].
  intros Hg. now rewrite IH.
Qed.

Lemma dict_get_pop_eq k d :
  List.NoDup (PyDict.keys d) -> PyDict.get k (PyDict.pop k d) = None.
Proof.
  induction d as [|[k0 v0] d IH]; simpl; [reflexivity|].
  intros Hnd. apply List.NoDup_cons_iff in Hnd as [Hnin Hnd].
  destruct (decide (k0 = k)) as [->|Hne]; simpl.
  - now apply dict_get_None_keys.
  - destruct (decide (k0 = k)); [contradiction|exact (IH Hnd)].
Qed.

Lemma dict_get_pop_ne k k' d :
  k <> k' -> PyDict.get k' (PyDict.pop k d) = PyDict.get k' d.
Proof.
  intros Hne. induction d as [|[k0 v0] d IH]; simpl; [reflexivity|].
  destruct (decide (k0 = k)) as [->|Hk]; simpl.
  - destruct (decide (k = k')); [contradiction|reflexivity].
  - destruct (decide (k0 = k')); [reflexivity|exact IH].
Qed.

Lemma dict_pop_idempotent k d :
  List.NoDup (PyDict.keys d) ->
  PyDict.pop k (PyDict.pop k d) = PyDict.pop k d.
Proof.
  intros Hnd. apply dict_pop_absent, dict_get_pop_eq, Hnd.
Qed.
End DictKeys.

(** X1.  [get] after [save] returns the saved memory under the memory's own
    identifier and tenant, and what it returned before under every other
    identifier or tenant. *)
Theorem get_after_save_any (m : Memory.t) (s : InMemoryBackend.t)
    (i : UUID) (t : string) :
  InMemoryBackend.get i t (InMemoryBackend.save m s)
  = if decide ((Memory.id m, Memory.tenant_id m) = (i, t))
    then Some m
    else InMemoryBackend.get i t s.
Proof.
  unfold InMemoryBackend.get. simpl.
  destruct (decide ((Memory.id m, Memory.tenant_id m) = (i, t))) as [<-|Hne].
  - apply dict_get_set_eq.
  - now apply dict_get_set_ne.
Qed.

(** X2.  On a backend without duplicate keys, [delete] makes [get] answer
    absence for the deleted identifier and tenant, leaves every other entry
    as it was, changes nothing when the entry is absent, and is idempotent. *)
Theorem delete_spec (s : InMemoryBackend.t) (i : UUID) (t : string) :
  unique_keys s ->
  InMemoryBackend.get i t (InMemoryBackend.delete i t s) = None /\
  (forall i' t', (i, t) <> (i', t') ->
     InMemoryBackend.get i' t' (InMemoryBackend.delete i t s)
     = InMemoryBackend.get i' t' s) /\
  (InMemoryBackend.get i t s = None ->
   InMemoryBackend._memories (InMemoryBackend.delete i t s)
   = InMemoryBackend._memories s) /\
  InMemoryBackend.delete i t (InMemoryBackend.delete i t s)
  = InMemoryBackend.delete i t s.
Proof.
  intros [Hm He]. unfold InMemoryBackend.get, InMemoryBackend.delete. simpl.
  repeat split.
  - now apply dict_get_pop_eq.
  - intros i' t' Hne. now apply dict_get_pop_ne.
  - apply dict_pop_absent.
  - now rewrite !dict_pop_idempotent.
Qed.

Lemma delete_spec_witness :
  let m := sample_memory 7%N "t" (Some [1; 0]%float) in
  let s := InMemoryBackend.save m InMemoryBackend.init in
  unique_keys s /\
  InMemoryBackend.get 7%N "t" s = Some m /\
  InMemoryBackend.get 7%N "t" (InMemoryBackend.delete 7%N "t" s) = None.
Proof.
  intros m s.
  assert (Hu : unique_keys s) by (split; repeat constructor; simpl; tauto).
  split; [exact Hu|]. split; [reflexivity|].
  exact (proj1 (delete_spec s 7%N "t" Hu)).
Defined.

Lemma unique_keys_save m s :
  unique_keys s -> unique_keys (InMemoryBackend.save m s).
Proof.
  intros [Hm He]. split; simpl.
  - now apply dict_NoDup_set.
  - destruct (Memory.embedding_truthy m); [now apply dict_NoDup_set|exact He].
Qed.

Lemma unique_keys_delete i t s :
  unique_keys s -> unique_keys (InMemoryBackend.delete i t s).
Proof. intros [Hm He]. split; simpl; now apply dict_NoDup_pop. Qed.

Lemma unique_keys_init : unique_keys InMemoryBackend.init.
Proof. split; constructor. Qed.

Lemma dict_keys_set_In {K V} `{EqDecision K} (k : K) (v : V)
    (d : list (K * V)) x :
  In x (PyDict.keys (PyDict.set k v d)) <-> x = k \/ In x (PyDict.keys d).
Proof.
  induction d as [|[k0 v0] d IH]; simpl; [intuition|].
  destruct (decide (k0 = k)) as [->|Hk]; simpl; [intuition|].
  rewrite IH. intuition.
Qed.

Lemma embedding_keys_save m s :
  incl (PyDict.keys (InMemoryBackend._embeddings s))
       (PyDict.keys (InMemoryBackend._memories s)) ->
  incl (PyDict.keys (InMemoryBackend._embeddings (InMemoryBackend.save m s)))
       (PyDict.keys (InMemoryBackend._memories (InMemoryBackend.save m s))).
Proof.
  intros Hincl x. simpl. rewrite dict_keys_set_In.
  destruct (Memory.embedding_truthy m) as [e|].
  - rewrite dict_keys_set_In. intros [Hx|Hx]; [now left|right; exact (Hincl x Hx)].
  - intros Hx. right. exact (Hincl x Hx).
Qed.

Lemma dict_keys_pop_other {K V} `{EqDecision K} (k : K) (d : list (K * V)) x :
  x <> k -> In x (PyDict.keys d) -> In x (PyDict.keys (PyDict.pop k d)).
Proof.
  intros Hne. induction d as [|[k0 v0] d IH]; simpl; [tauto|].
  destruct (decide (k0 = k)) as [->|Hk]; simpl.
  - intros [Hx|Hx]; [congruence|exact Hx].
  - intros [Hx|Hx]; [now left|right; exact (IH Hx)].
Qed.

Lemma dict_keys_pop_self {K V} `{EqDecision K} (k : K) (d : list (K * V)) :
  List.NoDup (PyDict.keys d) -> ~ In k (PyDict.keys (PyDict.pop k d)).
Proof.
  intros Hnd. apply dict_get_None_keys, dict_get_pop_eq, Hnd.
Qed.

(** X3.  Whatever sequence of [save], [delete] and [close] a backend has
    gone through since its creation, no two of its entries share an
    identifier and tenant, every memory is filed under its own identifier
    and tenant, and every key of [_embeddings] is a key of [_memories]. *)
Theorem backend_invariants (ops : list BackendOp) :
  let s := run_ops ops InMemoryBackend.init in
  unique_keys s /\ store_wf s /\
  incl (PyDict.keys (InMemoryBackend._embeddings s))
       (PyDict.keys (InMemoryBackend._memories s)).
Proof.
  cbv zeta.
  assert (Hgen : forall s,
             unique_keys s /\ store_wf s /\
             incl (PyDict.keys (InMemoryBackend._embeddings s))
                  (PyDict.keys (InMemoryBackend._memories s)) ->
             unique_keys (run_ops ops s) /\ store_wf (run_ops ops s) /\
             incl (PyDict.keys (InMemoryBackend._embeddings (run_ops ops s)))
                  (PyDict.keys (InMemoryBackend._memories (run_ops ops s)))).
  { induction ops as [|op ops IH]; intros s Hs; simpl; [exact Hs|].
    apply IH. destruct Hs as (Hu & Hwf & Hincl).
    destruct op as [m|i t|]; simpl.
    - split; [now apply unique_keys_save|].
      split; [now apply store_wf_save|now apply embedding_keys_save].
    - split; [now apply unique_keys_delete|].
      split; [now apply store_wf_delete|].
      intros x Hx. destruct (decide (x = (i, t))) as [->|Hne].
      + exfalso. revert Hx. apply dict_keys_pop_self, Hu.
      + apply dict_keys_pop_other; [exact Hne|].
        apply Hincl. eapply dict_keys_pop_incl, Hx.
    - split; [apply unique_keys_init|]. split; [apply store_wf_init|].
      intros x []. }
  apply Hgen. split; [apply unique_keys_init|]. split; [apply store_wf_init|].
  intros x [].
Qed.

(** X4.  [save] is an upsert: the number of memories of a tenant grows by
    one when the saved memory belongs to the tenant and its identifier is
    new there, and stays the same otherwise. *)
Theorem count_after_save (m : Memory.t) (s : InMemoryBackend.t) (t : string) :
  InMemoryBackend.count t None (InMemoryBackend.save m s)
  = if decide (Memory.tenant_id m = t)
    then match InMemoryBackend.get (Memory.id m) t s with
         | Some _ => InMemoryBackend.count t None s
         | None => S (InMemoryBackend.count t None s)
         end
    else InMemoryBackend.count t None s.
Proof.
  unfold InMemoryBackend.count, InMemoryBackend.get. simpl.
  rewrite !of_tenant_view, !length_map. simpl.
  destruct (decide (Memory.tenant_id m = t)) as [<-|Hne].
  - rewrite tenant_entries_set_same, dict_length_set.
    now rewrite <- get_tenant_entries.
  - now rewrite tenant_entries_set_other.
Qed.

Lemma firstn_plus {A} (a b : nat) : forall l : list A,
  firstn a l ++ firstn b (skipn a l) = firstn (a + b) l.
Proof.
  induction a as [|a IH]; intros l; simpl; [reflexivity|].
  destruct l as [|x l]; simpl; [now rewrite firstn_nil|].
  now rewrite IH.
Qed.

Lemma firstn_min_length {A} (n : nat) (l : list A) :
  firstn (Nat.min (length l) n) l = firstn n l.
Proof.
  destruct (Nat.le_ge_cases n (length l)) as [H|H].
  - now rewrite Nat.min_r.
  - rewrite Nat.min_l by exact H. now rewrite !firstn_all2 by lia.
Qed.

Lemma slice_nonneg {A} (l : list A) (a b : Z) :
  0 <= a -> 0 <= b ->
  Py.slice l a (a + b) = firstn (Z.to_nat b) (skipn (Z.to_nat a) l).
Proof.
  intros Ha Hb. unfold Py.slice, Py.clamp_index.
  destruct (Z.ltb_spec a 0); [lia|]. destruct (Z.ltb_spec (a + b) 0); [lia|].
  rewrite Z2Nat.inj_add by lia.
  set (n := Z.to_nat a). set (k := Z.to_nat b).
  destruct (Nat.le_ge_cases n (length l)) as [Hn|Hn].
  - rewrite (Nat.min_r _ n) by exact Hn.
    replace (Nat.min (length l) (n + k) - n)%nat
      with (Nat.min (length (skipn n l)) k) by (rewrite length_skipn; lia).
    apply firstn_min_length.
  - rewrite (Nat.min_l _ n) by exact Hn.
    rewrite !skipn_all2 by lia. now rewrite !firstn_nil.
Qed.

(** X5.  Pagination of [list] with a non-negative offset and limit: the
    page is the [limit] memories that follow the first [offset] ones of the
    tenant's filtered memories, it holds at most [limit] memories, and a
    page followed by the next one is the page of both. *)
Theorem list_pagination (t : string) (f : option Filters.t)
    (s : InMemoryBackend.t) (offset limit : Z) :
  0 <= offset -> 0 <= limit ->
  let all := InMemoryBackend.list_ t (Z.of_nat (InMemoryBackend.count t f s)) 0 f s in
  length all = InMemoryBackend.count t f s /\
  InMemoryBackend.list_ t limit offset f s
  = firstn (Z.to_nat limit) (skipn (Z.to_nat offset) all) /\
  Z.of_nat (length (InMemoryBackend.list_ t limit offset f s)) <= limit /\
  InMemoryBackend.list_ t offset 0 f s ++ InMemoryBackend.list_ t limit offset f s
  = InMemoryBackend.list_ t (offset + limit) 0 f s.
Proof.
  intros Ho Hl. unfold InMemoryBackend.list_, InMemoryBackend.count.
  set (ms := match InMemoryBackend.filters_truthy f with
             | Some f0 => InMemoryBackend._apply_filters_to_memories
                            (InMemoryBackend.of_tenant t s) f0
             | None => InMemoryBackend.of_tenant t s
             end).
  cbv zeta.
  assert (Hall : Py.slice ms 0 (0 + Z.of_nat (length ms)) = ms).
  { rewrite slice_nonneg by lia. simpl. rewrite Nat2Z.id. apply firstn_all. }
  rewrite Hall.
  assert (Hpage : Py.slice ms offset (offset + limit)
                  = firstn (Z.to_nat limit) (skipn (Z.to_nat offset) ms))
    by (apply slice_nonneg; lia).
  repeat split.
  - exact Hpage.
  - rewrite Hpage, length_firstn. lia.
  - assert (H0 : forall b, 0 <= b -> Py.slice ms 0 b = firstn (Z.to_nat b) ms).
    { intros b Hb. exact (slice_nonneg ms 0 b ltac:(lia) Hb). }
    rewrite Hpage, !Z.add_0_l, !H0 by lia.
    rewrite Z2Nat.inj_add by lia. apply firstn_plus.
Qed.

Lemma list_pagination_witness :
  let a := sample_memory 1%N "t" None in
  let b := sample_memory 2%N "t" None in
  let c := sample_memory 3%N "t" None in
  let s := InMemoryBackend.save c
             (InMemoryBackend.save b
                (InMemoryBackend.save a InMemoryBackend.init)) in
  0 <= 1 /\ 0 <= 5 /\
  InMemoryBackend.list_ "t" 5 1 None s = [b; c] /\
  InMemoryBackend.list_ "t" 1 0 None s ++ InMemoryBackend.list_ "t" 5 1 None s
  = InMemoryBackend.list_ "t" 6 0 None s.
Proof.
  intros a b c s.
  destruct (list_pagination "t" None s 1 5 ltac:(lia) ltac:(lia))
    as (_ & Hpage & _ & Hcat).
  split; [lia|]. split; [lia|]. split; [rewrite Hpage; reflexivity|exact Hcat].
Defined.

(** ** Filters *)

Lemma issubset_spec (required have : list string) :
  InMemoryBackend.issubset required have = true
  <-> forall tag, In tag required -> In tag have.
Proof.
  unfold InMemoryBackend.issubset. rewrite forallb_forall.
  split; intros H tag Hin.
  - apply H in Hin. apply existsb_exists in Hin as [x [Hx Heq]].
    apply String.eqb_eq in Heq. now subst.
  - apply existsb_exists. exists tag. split; [now apply H|apply String.eqb_refl].
Qed.

(** X6.  A memory passes a filter exactly when its category equals the
    required category, if one is required, and its tags contain every
    required tag, if tags are required. *)
Theorem passes_spec (filters : Filters.t) (memory : Memory.t) :
  InMemoryBackend.passes filters memory = true
  <-> (forall c, Filters.category filters = Some c ->
         MemoryMetadata.category (Memory.metadata memory) = c) /\
      (forall required, Filters.tags filters = Some required ->
         forall tag, In tag required ->
           In tag (MemoryMetadata.tags (Memory.metadata memory))).
Proof.
  unfold InMemoryBackend.passes. rewrite andb_true_iff.
  destruct (Filters.category filters) as [c|];
    destruct (Filters.tags filters) as [req|];
    rewrite ?String.eqb_eq, ?issubset_spec; split.
  - intros [Hc Ht]. split; [now intros c' [= <-]|now intros r [= <-]].
  - intros [Hc Ht]. split; [now apply Hc|now apply Ht].
  - intros [Hc _]. split; [now intros c' [= <-]|discriminate].
  - intros [Hc _]. split; [now apply Hc|reflexivity].
  - intros [_ Ht]. split; [discriminate|now intros r [= <-]].
  - intros [_ Ht]. split; [reflexivity|now apply Ht].
  - intros _. split; discriminate.
  - intros _. split; reflexivity.
Qed.

(** The tag filter of the documentation: a memory tagged [db] and [prod]
    matches the filter [db] and not the filter [db], [staging]. *)
Example tag_filter_example :
  let m := Memory.mk 1%N "c" (MemoryMetadata.mk "general" ["db"; "prod"] medium [])
             None "t" 0 0 None [] [] 1 in
  InMemoryBackend.passes (Filters.mk None (Some ["db"])) m = true /\
  InMemoryBackend.passes (Filters.mk None (Some ["db"; "staging"])) m = false.
Proof. split; reflexivity. Qed.

Lemma filters_truthy_passes (f : option Filters.t) (f0 : Filters.t) m :
  f = Some f0 ->
  match InMemoryBackend.filters_truthy f with
  | Some f1 => InMemoryBackend.passes f1 m = true
  | None => True
  end ->
  InMemoryBackend.passes f0 m = true.
Proof.
  intros ->. unfold InMemoryBackend.filters_truthy.
  destruct (Filters.category f0) eqn:Hc, (Filters.tags f0) eqn:Ht; auto.
  intros _. unfold InMemoryBackend.passes. now rewrite Hc, Ht.
Qed.

(** X7.  Every memory returned by [list] belongs to the queried tenant's
    entries and passes the filters given; on a well-formed store its
    [tenant_id] is the queried tenant. *)
Theorem list_sound (t : string) (limit offset : Z) (f : option Filters.t)
    (s : InMemoryBackend.t) (m : Memory.t) :
  In m (InMemoryBackend.list_ t limit offset f s) ->
  In m (InMemoryBackend.of_tenant t s) /\
  (forall f0, f = Some f0 -> InMemoryBackend.passes f0 m = true) /\
  (store_wf s -> Memory.tenant_id m = t).
Proof.
  intros Hin. split; [eapply list_In, Hin|]. split.
  - intros f0 Hf. apply (filters_truthy_passes f f0 m Hf).
    unfold InMemoryBackend.list_ in Hin. apply slice_In in Hin.
    destruct (InMemoryBackend.filters_truthy f); [|exact I].
    unfold InMemoryBackend._apply_filters_to_memories in Hin.
    now apply filter_In in Hin.
  - intros Hwf. eapply of_tenant_tenant_id; [exact Hwf|eapply list_In, Hin].
Qed.

Lemma list_sound_witness :
  let m := Memory.mk 1%N "c" (MemoryMetadata.mk "ops" ["db"; "prod"] medium [])
             None "t" 0 0 None [] [] 1 in
  let s := InMemoryBackend.save m InMemoryBackend.init in
  let f := Some (Filters.mk (Some "ops") (Some ["db"])) in
  In m (InMemoryBackend.list_ "t" 10 0 f s) /\
  InMemoryBackend.passes (Filters.mk (Some "ops") (Some ["db"])) m = true.
Proof.
  intros m s f.
  assert (Hin : In m (InMemoryBackend.list_ "t" 10 0 f s)) by (now left).
  split; [exact Hin|].
  destruct (list_sound "t" 10 0 f s m Hin) as (_ & Hp & _).
  now apply Hp.
Defined.

(** ** Search *)

Lemma scored_spec pow_half q l : forall scored,
  rmapM (InMemoryBackend.score_one pow_half q) l = Ok scored ->
  forall r,
    In r (omap (fun o => o) scored)
    <-> exists e,
          In (SearchResult.memory r) l /\
          Memory.embedding_truthy (SearchResult.memory r) = Some e /\
          InMemoryBackend._cosine_similarity pow_half q e
          = Ok (SearchResult.score r).
Proof.
  induction l as [|m l IH]; simpl; intros scored.
  - intros [= <-] r. simpl. split; [tauto|]. intros (e & [] & _).
  - unfold rbind at 1.
    destruct (InMemoryBackend.score_one pow_half q m) as [o|err] eqn:Ho;
      [|discriminate].
    unfold rbind at 1.
    destruct (rmapM (InMemoryBackend.score_one pow_half q) l) as [ys|err] eqn:Hys;
      [|discriminate].
    intros [= <-] r. specialize (IH ys eq_refl r).
    unfold InMemoryBackend.score_one in Ho.
    destruct (Memory.embedding_truthy m) as [e|] eqn:He.
    + destruct (InMemoryBackend._cosine_similarity pow_half q e) as [sc|err] eqn:Hc;
        simpl in Ho; [|discriminate].
      injection Ho as <-. simpl. rewrite IH. split.
      * intros [<-|(e' & Hin & He' & Hc')].
        -- exists e. simpl. auto.
        -- exists e'. auto.
      * intros (e' & [Hm|Hin] & He' & Hc').
        -- left. destruct r as [rm rs]. simpl in *. subst rm.
           rewrite He in He'. injection He' as <-.
           rewrite Hc in Hc'. now injection Hc' as <-.
        -- right. exists e'. auto.
    + injection Ho as <-. simpl. rewrite IH. split.
      * intros (e' & Hin & He' & Hc'). exists e'. auto.
      * intros (e' & [Hm|Hin] & He' & Hc').
        -- subst m. rewrite He in He'. discriminate.
        -- exists e'. auto.
Qed.

Lemma scored_length pow_half q l : forall scored,
  rmapM (InMemoryBackend.score_one pow_half q) l = Ok scored ->
  (length (omap (fun o => o) scored) <= length l)%nat.
Proof.
  induction l as [|m l IH]; simpl; intros scored.
  - intros [= <-]. simpl. lia.
  - unfold rbind at 1.
    destruct (InMemoryBackend.score_one pow_half q m) as [o|err]; [|discriminate].
    unfold rbind at 1.
    destruct (rmapM (InMemoryBackend.score_one pow_half q) l) as [ys|err];
      [|discriminate].
    intros [= <-]. specialize (IH ys eq_refl).
    destruct o; simpl; [apply le_n_S, IH|apply le_S, IH].
Qed.

Lemma slice_to_all {A} (l : list A) (n : Z) :
  Z.of_nat (length l) <= n -> Py.slice_to l n = l.
Proof.
  intros Hn. unfold Py.slice_to, Py.clamp_index.
  destruct (Z.ltb_spec n 0); [lia|].
  rewrite Nat.min_l by lia. apply firstn_all.
Qed.

(** X8.  What [search] returns, when it returns: every result is a memory
    of the queried tenant that has a non-empty embedding and passes the
    filters, scored by the cosine similarity of the query and that
    embedding; memories without an embedding never appear.  When [limit] is
    at least the number of the tenant's memories, every such memory
    appears. *)
Theorem search_spec (pow_half : float -> float) (q : vector) (t : string)
    (limit : Z) (f : option Filters.t) (s : InMemoryBackend.t)
    (rs : list SearchResult.t) :
  InMemoryBackend.search pow_half q t limit f s = Ok rs ->
  (forall r, In r rs ->
     exists e,
       In (SearchResult.memory r) (InMemoryBackend.of_tenant t s) /\
       Memory.embedding_truthy (SearchResult.memory r) = Some e /\
       InMemoryBackend._cosine_similarity pow_half q e
       = Ok (SearchResult.score r) /\
       (forall f0, f = Some f0 ->
          InMemoryBackend.passes f0 (SearchResult.memory r) = true)) /\
  (Z.of_nat (length (InMemoryBackend.of_tenant t s)) <= limit ->
   forall m e,
     In m (InMemoryBackend.of_tenant t s) ->
     Memory.embedding_truthy m = Some e ->
     (forall f0, f = Some f0 -> InMemoryBackend.passes f0 m = true) ->
     exists sc,
       InMemoryBackend._cosine_similarity pow_half q e = Ok sc /\
       In (SearchResult.mk m sc) rs).
Proof.
  unfold InMemoryBackend.search, rbind.
  destruct (rmapM _ _) as [scored|err] eqn:Hs; [|discriminate].
  intros [= <-].
  pose proof (scored_spec _ _ _ _ Hs) as Hspec.
  pose proof (scored_length _ _ _ _ Hs) as Hlen.
  set (results := omap (fun o => o) scored) in *.
  set (filtered := match InMemoryBackend.filters_truthy f with
                   | Some f1 => InMemoryBackend._apply_filters results f1
                   | None => results
                   end).
  assert (Hfilt : forall r, In r filtered <->
                    In r results /\
                    match InMemoryBackend.filters_truthy f with
                    | Some f1 => InMemoryBackend.passes f1 (SearchResult.memory r) = true
                    | None => True
                    end).
  { intros r. unfold filtered.
    destruct (InMemoryBackend.filters_truthy f); [|tauto].
    unfold InMemoryBackend._apply_filters. apply filter_In. }
  split.
  - intros r Hin. apply slice_to_In in Hin.
    apply (proj1 (sort_desc_In _ _)) in Hin.
    apply Hfilt in Hin as [Hin Hp]. apply Hspec in Hin as (e & Hm & He & Hc).
    exists e. repeat split; auto.
    intros f0 Hf. now apply (filters_truthy_passes f f0).
  - intros Hlimit m e Hm He Hp.
    destruct (InMemoryBackend._cosine_similarity pow_half q e) as [sc|err] eqn:Hc.
    + exists sc. split; [reflexivity|].
      rewrite slice_to_all.
      * apply sort_desc_In, Hfilt. split.
        -- apply Hspec. exists e. simpl. auto.
        -- simpl. destruct f as [f0|]; simpl; [|exact I].
           destruct (Filters.category f0), (Filters.tags f0); auto.
      * rewrite sort_desc_length.
        assert (length filtered <= length results)%nat.
        { unfold filtered. destruct (InMemoryBackend.filters_truthy f); [|lia].
          unfold InMemoryBackend._apply_filters. apply filter_length_le. }
        lia.
    + exfalso. clear -Hs Hm He Hc.
      revert scored Hs. induction (InMemoryBackend.of_tenant t s) as [|m0 l IH];
        [destruct Hm|].
      simpl. intros scored. unfold rbind at 1.
      destruct (InMemoryBackend.score_one pow_half q m0) as [o|err0] eqn:Ho.
      * unfold rbind at 1.
        destruct (rmapM (InMemoryBackend.score_one pow_half q) l) as [ys|e1] eqn:Hys;
          [|discriminate].
        destruct Hm as [->|Hm]; [|intros _; exact (IH Hm ys eq_refl)].
        unfold InMemoryBackend.score_one in Ho. rewrite He, Hc in Ho.
        discriminate.
      * discriminate.
Qed.

Lemma search_spec_witness :
  let a := sample_memory 1%N "t" (Some [1; 0]%float) in
  let b := sample_memory 2%N "t" None in
  let s := InMemoryBackend.save b (InMemoryBackend.save a InMemoryBackend.init) in
  InMemoryBackend.search PrimFloat.sqrt [1; 0]%float "t" 10 None s
  = Ok [SearchResult.mk a 1%float] /\
  (forall r, In r [SearchResult.mk a 1%float] ->
     Memory.embedding_truthy (SearchResult.memory r) <> None).
Proof.
  intros a b s.
  assert (Hs : InMemoryBackend.search PrimFloat.sqrt [1; 0]%float "t" 10 None s
               = Ok [SearchResult.mk a 1%float]) by reflexivity.
  split; [exact Hs|].
  intros r Hr.
  destruct (search_spec PrimFloat.sqrt _ _ _ _ _ _ Hs) as [Hsound _].
  destruct (Hsound r Hr) as (e & _ & He & _). rewrite He. discriminate.
Defined.

(** X9.  Rankings for different limits agree: with a non-negative [limit],
    [search] returns the first [limit] results of the search made with any
    larger limit. *)
Theorem search_prefix (pow_half : float -> float) (q : vector) (t : string)
    (limit limit' : Z) (f : option Filters.t) (s : InMemoryBackend.t)
    (rs : list SearchResult.t) :
  0 <= limit -> limit <= limit' ->
  InMemoryBackend.search pow_half q t limit f s = Ok rs ->
  exists rs',
    InMemoryBackend.search pow_half q t limit' f s = Ok rs' /\
    rs = firstn (Z.to_nat limit) rs'.
Proof.
  intros H0 Hle. unfold InMemoryBackend.search, rbind.
  destruct (rmapM _ _) as [scored|err]; [|discriminate].
  intros [= <-]. eexists. split; [reflexivity|].
  unfold Py.slice_to, Py.clamp_index.
  destruct (Z.ltb_spec limit 0); [lia|]. destruct (Z.ltb_spec limit' 0); [lia|].
  rewrite !firstn_min_length, firstn_firstn.
  now rewrite Nat.min_l by lia.
Qed.

Lemma search_prefix_witness :
  let a := sample_memory 1%N "t" (Some [1; 0]%float) in
  let b := sample_memory 2%N "t" (Some [0; 1]%float) in
  let s := InMemoryBackend.save b (InMemoryBackend.save a InMemoryBackend.init) in
  0 <= 1 /\ 1 <= 5 /\
  InMemoryBackend.search PrimFloat.sqrt [0; 1]%float "t" 1 None s
  = Ok [SearchResult.mk b 1%float] /\
  exists rs',
    InMemoryBackend.search PrimFloat.sqrt [0; 1]%float "t" 5 None s = Ok rs' /\
    [SearchResult.mk b 1%float] = firstn 1 rs'.
Proof.
  intros a b s. split; [lia|]. split; [lia|]. split; [reflexivity|].
  exact (search_prefix PrimFloat.sqrt [0; 1]%float "t" 1 5 None s
           [SearchResult.mk b 1%float] ltac:(lia) ltac:(lia) eq_refl).
Defined.

(** ** Ranking *)

Lemma SFcompare_antisym (a b : spec_float) :
  SFcompare b a = option_map CompOpp (SFcompare a b).
Proof.
  destruct a as [sa|sa| |sa ma ea], b as [sb|sb| |sb mb eb]; simpl;
    try reflexivity; try (destruct sa; reflexivity);
    try (destruct sb; reflexivity); try (destruct sa, sb; reflexivity).
  destruct sa, sb; simpl; try reflexivity.
  - rewrite (Z.compare_antisym eb ea).
    destruct (eb ?= ea)%Z; simpl; try reflexivity.
    f_equal. rewrite CompOpp_involutive.
    change (PosDef.Pos.compare_cont Eq mb ma) with (Pos.compare_cont Eq mb ma).
    change (PosDef.Pos.compare_cont Eq ma mb) with (Pos.compare_cont Eq ma mb).
    now rewrite (Pos.compare_cont_antisym mb ma Eq).
  - rewrite (Z.compare_antisym eb ea).
    destruct (eb ?= ea)%Z; simpl; try reflexivity.
    f_equal.
    change (PosDef.Pos.compare_cont Eq mb ma) with (Pos.compare_cont Eq mb ma).
    change (PosDef.Pos.compare_cont Eq ma mb) with (Pos.compare_cont Eq ma mb).
    now rewrite (Pos.compare_cont_antisym ma mb Eq).
Qed.

Lemma not_nan_compare (x y : float) :
  not_nan x = true -> not_nan y = true ->
  exists c, SFcompare (Prim2SF x) (Prim2SF y) = Some c.
Proof.
  unfold not_nan. rewrite !FloatAxioms.eqb_spec. unfold SFeqb.
  destruct (Prim2SF x) as [sa|sa| |sa ma ea], (Prim2SF y) as [sb|sb| |sb mb eb];
    simpl; intros Hx Hy; try discriminate; eauto.
Qed.

(** Among floats that are not NaN, [x < y] fails exactly when [y <= x]. *)
Lemma ltb_false_leb (x y : float) :
  not_nan x = true -> not_nan y = true ->
  (x <? y)%float = false -> (y <=? x)%float = true.
Proof.
  intros Hx Hy. destruct (not_nan_compare x y Hx Hy) as [c Hc].
  rewrite FloatAxioms.ltb_spec, FloatAxioms.leb_spec. unfold SFltb, SFleb.
  rewrite (SFcompare_antisym (Prim2SF x) (Prim2SF y)), Hc. simpl.
  destruct c; simpl; congruence.
Qed.

Lemma ltb_leb (x y : float) : (x <? y)%float = true -> (x <=? y)%float = true.
Proof.
  rewrite FloatAxioms.ltb_spec, FloatAxioms.leb_spec. unfold SFltb, SFleb.
  destruct (SFcompare (Prim2SF x) (Prim2SF y)) as [[]|]; congruence.
Qed.

Lemma descending_cons x l :
  descending (x :: l)
  <-> match l with
      | [] => True
      | y :: _ => (SearchResult.score y <=? SearchResult.score x)%float = true
      end /\ descending l.
Proof. reflexivity. Qed.

Lemma insert_desc_head x l :
  (exists l', InMemoryBackend.insert_desc x l = x :: l') \/
  (exists y l0 l', l = y :: l0 /\ InMemoryBackend.insert_desc x l = y :: l' /\
                   (SearchResult.score x <? SearchResult.score y)%float = true).
Proof.
  destruct l as [|y l]; simpl; [left; eauto|].
  destruct (SearchResult.score x <? SearchResult.score y)%float eqn:Hlt.
  - right. eauto 6.
  - left. eauto.
Qed.

Lemma insert_desc_descending x l :
  not_nan (SearchResult.score x) = true -> scores_not_nan l ->
  descending l -> descending (InMemoryBackend.insert_desc x l).
Proof.
  intros Hx Hl. induction l as [|y l IH]; intros Hd; [simpl; auto|].
  apply List.Forall_cons_iff in Hl as [Hy Hl].
  apply descending_cons in Hd as [Hhead Hd].
  simpl. destruct (SearchResult.score x <? SearchResult.score y)%float eqn:Hlt.
  - apply descending_cons. split; [|exact (IH Hl Hd)].
    destruct (insert_desc_head x l) as [[l' ->]|(z & l0 & l' & -> & -> & _)].
    + now apply ltb_leb.
    + exact Hhead.
  - apply descending_cons. split; [now apply ltb_false_leb|].
    apply descending_cons. split; assumption.
Qed.

Lemma scores_not_nan_insert x l :
  not_nan (SearchResult.score x) = true -> scores_not_nan l ->
  scores_not_nan (InMemoryBackend.insert_desc x l).
Proof.
  intros Hx Hl. apply List.Forall_forall. intros r Hr.
  apply insert_desc_In in Hr as [->|Hr]; [exact Hx|].
  unfold scores_not_nan in Hl. rewrite List.Forall_forall in Hl. now apply Hl.
Qed.

Lemma sort_desc_descending l :
  scores_not_nan l ->
  descending (InMemoryBackend.sort_desc l)
  /\ scores_not_nan (InMemoryBackend.sort_desc l).
Proof.
  induction l as [|x l IH]; intros Hl; [split; [exact I|constructor]|].
  apply List.Forall_cons_iff in Hl as [Hx Hl].
  destruct (IH Hl) as [Hd Hn]. simpl. split.
  - now apply insert_desc_descending.
  - now apply scores_not_nan_insert.
Qed.

Lemma descending_firstn n : forall l, descending l -> descending (firstn n l).
Proof.
  induction n as [|n IH]; intros l Hd; [exact I|].
  destruct l as [|x l]; [exact I|].
  apply descending_cons in Hd as [Hhead Hd].
  change (firstn (S n) (x :: l)) with (x :: firstn n l).
  apply descending_cons. split; [|exact (IH l Hd)].
  destruct l as [|y l]; [now destruct n|].
  destruct n; [exact I|exact Hhead].
Qed.

(** X10.  [search] ranks by decreasing score: when no candidate of the
    tenant scores NaN, every returned result scores at most what the result
    before it scores. *)
Theorem search_descending (pow_half : float -> float) (q : vector)
    (t : string) (limit : Z) (f : option Filters.t) (s : InMemoryBackend.t)
    (rs : list SearchResult.t) :
  (forall m e sc,
     In m (InMemoryBackend.of_tenant t s) ->
     Memory.embedding_truthy m = Some e ->
     InMemoryBackend._cosine_similarity pow_half q e = Ok sc ->
     not_nan sc = true) ->
  InMemoryBackend.search pow_half q t limit f s = Ok rs ->
  descending rs.
Proof.
  intros Hnan. unfold InMemoryBackend.search, rbind.
  destruct (rmapM _ _) as [scored|err] eqn:Hs; [|discriminate].
  intros [= <-].
  pose proof (scored_spec _ _ _ _ Hs) as Hspec.
  apply descending_firstn, sort_desc_descending.
  apply List.Forall_forall. intros r Hr.
  assert (Hin : In r (omap (fun o => o) scored)).
  { destruct (InMemoryBackend.filters_truthy f); [|exact Hr].
    unfold InMemoryBackend._apply_filters in Hr. now apply filter_In in Hr. }
  apply Hspec in Hin as (e & Hm & He & Hc).
  exact (Hnan _ _ _ Hm He Hc).
Qed.

Lemma search_descending_witness :
  let a := sample_memory 1%N "t" (Some [0; 1]%float) in
  let b := sample_memory 2%N "t" (Some [1; 0]%float) in
  let s := InMemoryBackend.save b (InMemoryBackend.save a InMemoryBackend.init) in
  InMemoryBackend.search PrimFloat.sqrt [1; 0]%float "t" 10 None s
  = Ok [SearchResult.mk b 1%float; SearchResult.mk a 0%float] /\
  descending [SearchResult.mk b 1%float; SearchResult.mk a 0%float].
Proof.
  intros a b s. split; [reflexivity|].
  apply (search_descending PrimFloat.sqrt [1; 0]%float "t" 10 None s).
  - intros m e sc [<-|[<-|[]]] [= <-] [= <-]; reflexivity.
  - reflexivity.
Defined.

(** * Further properties of the memory entity *)

Lemma filter_other_targets_app (target : UUID) (l : list MemoryRelationship.t) r :
  MemoryRelationship.target_id r = target ->
  List.filter (fun x => negb (MemoryRelationship.target_id x =? target)%N)
              (List.filter
                 (fun x => negb (MemoryRelationship.target_id x =? target)%N) l
               ++ [r])
  = List.filter (fun x => negb (MemoryRelationship.target_id x =? target)%N) l.
Proof.
  intros Hr. rewrite List.filter_app. simpl.
  rewrite Hr, N.eqb_refl. simpl. rewrite app_nil_r.
  induction l as [|x l IH]; simpl; [reflexivity|].
  destruct (negb (MemoryRelationship.target_id x =? target)%N) eqn:Hx; simpl;
    [rewrite Hx; f_equal|]; exact IH.
Qed.

Lemma NoDup_filter_targets (target : UUID) (l : list MemoryRelationship.t) :
  List.NoDup (map MemoryRelationship.target_id l) ->
  List.NoDup
    (map MemoryRelationship.target_id
       (List.filter
          (fun x => negb (MemoryRelationship.target_id x =? target)%N) l)).
Proof.
  induction l as [|x l IH]; simpl; [auto|].
  intros Hnd. apply List.NoDup_cons_iff in Hnd as [Hnin Hnd].
  destruct (negb (MemoryRelationship.target_id x =? target)%N); simpl;
    [|exact (IH Hnd)].
  apply List.NoDup_cons; [|exact (IH Hnd)].
  intros Hin. apply Hnin. apply in_map_iff in Hin as (y & Hy & Hin).
  apply filter_In in Hin as [Hin _]. apply in_map_iff. eauto.
Qed.

(** X11.  After a successful [add_relationship] the memory has exactly one
    relationship to the target, the one just given, placed last; the
    relationships to other targets are kept in their order; and targets
    that were pairwise distinct stay so.  The call succeeds exactly when
    [0 <= strength <= 1]. *)
Theorem add_relationship_spec (target : UUID) (ty : RelationshipType)
    (strength : float) (m : Memory.t) :
  match Memory.add_relationship target ty strength m with
  | Ok m' =>
      ((0 <=? strength) && (strength <=? 1))%float = true /\
      List.filter (fun r => (MemoryRelationship.target_id r =? target)%N)
                  (Memory.relationships m')
      = [MemoryRelationship.mk target ty strength] /\
      List.last (Memory.relationships m') (MemoryRelationship.mk target ty strength)
      = MemoryRelationship.mk target ty strength /\
      List.filter (fun r => negb (MemoryRelationship.target_id r =? target)%N)
                  (Memory.relationships m')
      = List.filter (fun r => negb (MemoryRelationship.target_id r =? target)%N)
                    (Memory.relationships m) /\
      (List.NoDup (relationship_targets m) -> List.NoDup (relationship_targets m'))
  | Raise _ => ((0 <=? strength) && (strength <=? 1))%float = false
  end.
Proof.
  unfold Memory.add_relationship, MemoryRelationship.new, rbind.
  destruct ((0 <=? strength) && (strength <=? 1))%float; [|reflexivity].
  simpl. set (keep := List.filter _ (Memory.relationships m)).
  assert (Hkeep : List.filter
                    (fun r => (MemoryRelationship.target_id r =? target)%N) keep = []).
  { unfold keep. induction (Memory.relationships m) as [|x l IH]; [reflexivity|].
    simpl. destruct (MemoryRelationship.target_id x =? target)%N eqn:Hx; simpl;
      [|rewrite Hx]; exact IH. }
  split; [reflexivity|]. split; [|split; [|split]].
  - rewrite List.filter_app, Hkeep. simpl. now rewrite N.eqb_refl.
  - apply last_last.
  - now apply filter_other_targets_app.
  - unfold relationship_targets. simpl. intros Hnd.
    rewrite map_app. simpl. apply List.NoDup_app.
    + now apply NoDup_filter_targets.
    + repeat constructor. simpl. tauto.
    + intros x Hx [<-|[]]. apply in_map_iff in Hx as (y & Hy & Hin).
      apply filter_In in Hin as [_ Hne]. rewrite Hy, N.eqb_refl in Hne.
      discriminate.
Qed.

Lemma set_ttl_eq (now : datetime) (days : Z) (m : Memory.t) :
  Memory.set_ttl now days m
  = if ttl_in_range now days
    then Ok (Memory.mk (Memory.id m) (Memory.content m) (Memory.metadata m)
               (Memory.embedding m) (Memory.tenant_id m) (Memory.created_at m)
               (Memory.updated_at m) (Some (now + days * 86400000000))
               (Memory.relationships m) (Memory.versions m) (Memory.version m))
    else Raise OverflowError.
Proof.
  unfold Memory.set_ttl, DateTime.timedelta, DateTime.add, ttl_in_range,
    DateTime.max_delta_days, DateTime.microseconds_per_day.
  change DateTime.max with 315537897599999999.
  destruct (Z.abs days <=? 999999999); simpl; [|reflexivity].
  now destruct ((0 <=? now + days * 86400000000)
                && (now + days * 86400000000 <=? 315537897599999999)).
Qed.

Lemma ttl_in_range_spec (now : datetime) (days : Z) :
  ttl_in_range now days = true
  <-> Z.abs days <= 999999999 /\
      0 <= now + days * 86400000000 <= 315537897599999999.
Proof.
  unfold ttl_in_range. rewrite !andb_true_iff, !Z.leb_le. tauto.
Qed.

(** X12.  [set_ttl] succeeds exactly when the magnitude of [days] is at
    most 999999999 and [now + days] is a [datetime] (from year 1 to year
    9999), and raises [OverflowError] otherwise.  After a successful call
    the memory is expired exactly at the instants after [now + days]:
    with zero or a negative number of days it is expired at any later
    instant. *)
Theorem set_ttl_is_expired (now now' : datetime) (days : Z) (m : Memory.t) :
  match Memory.set_ttl now days m with
  | Ok m' =>
      (Z.abs days <= 999999999 /\
       0 <= now + days * 86400000000 <= 315537897599999999) /\
      Memory.expires_at m' = Some (now + days * 86400000000) /\
      (Memory.is_expired now' m' = true <-> now + days * 86400000000 < now')
  | Raise e =>
      e = OverflowError /\
      ~ (Z.abs days <= 999999999 /\
         0 <= now + days * 86400000000 <= 315537897599999999)
  end.
Proof.
  rewrite set_ttl_eq.
  destruct (ttl_in_range now days) eqn:Hr.
  - apply ttl_in_range_spec in Hr. split; [exact Hr|].
    split; [reflexivity|]. unfold Memory.is_expired. simpl. apply Z.ltb_lt.
  - split; [reflexivity|]. intros H. apply ttl_in_range_spec in H. congruence.
Qed.

(** ** Tags *)

Lemma lower_char_idempotent (c : ascii) :
  Py.lower_char (Py.lower_char c) = Py.lower_char c.
Proof. destruct c as [[] [] [] [] [] [] [] []]; reflexivity. Qed.

Lemma is_space_lower_char (c : ascii) :
  Py.is_space (Py.lower_char c) = Py.is_space c.
Proof. destruct c as [[] [] [] [] [] [] [] []]; reflexivity. Qed.

Lemma lower_idempotent (s : string) : Py.lower (Py.lower s) = Py.lower s.
Proof.
  induction s as [|c s IH]; simpl; [reflexivity|].
  now rewrite lower_char_idempotent, IH.
Qed.

Lemma lower_lstrip (s : string) : Py.lstrip (Py.lower s) = Py.lower (Py.lstrip s).
Proof.
  induction s as [|c s IH]; simpl; [reflexivity|].
  rewrite is_space_lower_char. now destruct (Py.is_space c).
Qed.

Lemma lower_rstrip (s : string) : Py.rstrip (Py.lower s) = Py.lower (Py.rstrip s).
Proof.
  induction s as [|c s IH]; simpl; [reflexivity|].
  rewrite IH, is_space_lower_char.
  destruct (Py.rstrip s); simpl; [now destruct (Py.is_space c)|reflexivity].
Qed.

Lemma lower_strip (s : string) : Py.strip (Py.lower s) = Py.lower (Py.strip s).
Proof. unfold Py.strip. now rewrite lower_lstrip, lower_rstrip. Qed.

Lemma lower_truthy (s : string) : Py.truthy (Py.lower s) = Py.truthy s.
Proof. now destruct s. Qed.

(** X13.  The tags kept by the validator are never empty and are already
    trimmed and lower-cased, so validating validated tags changes nothing
    (blank tags are dropped, duplicates are kept). *)
Theorem validate_tags_normal (v : list string) :
  (forall tag, In tag (MemoryMetadata.validate_tags v) ->
     tag <> "" /\ Py.strip tag = tag /\ Py.lower tag = tag) /\
  MemoryMetadata.validate_tags (MemoryMetadata.validate_tags v)
  = MemoryMetadata.validate_tags v.
Proof.
  assert (Hnorm : forall tag, In tag (MemoryMetadata.validate_tags v) ->
            tag <> "" /\ Py.strip tag = tag /\ Py.lower tag = tag).
  { intros tag Hin. unfold MemoryMetadata.validate_tags in Hin.
    apply in_map_iff in Hin as (x & <- & Hx). apply filter_In in Hx as [_ Hx].
    rewrite lower_strip. repeat split.
    - intros Heq. rewrite <- lower_truthy, Heq in Hx. discriminate.
    - now rewrite <- lower_strip, strip_idempotent.
    - apply lower_idempotent. }
  split; [exact Hnorm|].
  set (l := MemoryMetadata.validate_tags v) in *.
  unfold MemoryMetadata.validate_tags at 1.
  assert (Hfilter : List.filter (fun tag => Py.truthy (Py.strip tag)) l = l).
  { clearbody l. induction l as [|x l IH]; [reflexivity|]. simpl.
    destruct (Hnorm x (or_introl eq_refl)) as (Hne & Hs & _). rewrite Hs.
    destruct x; [congruence|]. simpl. f_equal.
    apply IH. intros tag Hin. apply Hnorm. now right. }
  rewrite Hfilter. clear Hfilter. clearbody l.
  induction l as [|x l IH]; [reflexivity|]. simpl.
  destruct (Hnorm x (or_introl eq_refl)) as (_ & Hs & Hl).
  rewrite Hl, Hs. f_equal. apply IH. intros tag Hin. apply Hnorm. now right.
Qed.

Example validate_tags_example :
  MemoryMetadata.validate_tags [" DB "; "   "; "Prod"; "db"] = ["db"; "prod"; "db"].
Proof. reflexivity. Qed.

(** * Further properties of the event bus *)

(** X14.  [subscribe] appends the handler to the handlers of its event
    type, after those already there, and leaves the handlers of every other
    type as they were; so [publish] reaches the new handler last. *)
Theorem subscribe_spec (ty : string) (handler : EventHandler)
    (bus : SimpleEventBus.t) :
  handlers_for ty (SimpleEventBus.subscribe ty handler bus)
  = handlers_for ty bus ++ [handler] /\
  (forall other, other <> ty ->
     handlers_for other (SimpleEventBus.subscribe ty handler bus)
     = handlers_for other bus) /\
  SimpleEventBus.registered ty handler (SimpleEventBus.subscribe ty handler bus)
  = true /\
  (forall run event, event_type event = ty ->
     SimpleEventBus.publish run event (SimpleEventBus.subscribe ty handler bus)
     = SimpleEventBus.publish run event bus
       ++ match run handler event with Ok _ => [] | Raise _ => [handler] end).
Proof.
  unfold handlers_for, SimpleEventBus.subscribe, SimpleEventBus.registered,
    SimpleEventBus.publish. simpl.
  split; [now rewrite lookup_insert_eq|].
  split; [intros other Hne; now rewrite lookup_insert_ne|].
  split.
  - rewrite lookup_insert_eq, existsb_app. simpl.
    rewrite Nat.eqb_refl. apply orb_true_r.
  - intros run event <-. rewrite lookup_insert_eq, List.filter_app. simpl.
    now destruct (run handler event).
Qed.

Lemma list_remove_first (h : EventHandler) (l : list EventHandler) :
  existsb (Nat.eqb h) l = true ->
  exists l1 l2,
    l = l1 ++ h :: l2 /\ ~ In h l1 /\
    SimpleEventBus.list_remove h l = Ok (l1 ++ l2).
Proof.
  induction l as [|y l IH]; simpl; [discriminate|].
  destruct (Nat.eqb y h) eqn:Hy.
  - intros _. apply Nat.eqb_eq in Hy as ->. exists [], l. simpl. tauto.
  - rewrite Nat.eqb_sym, Hy. simpl. intros Hin.
    destruct (IH Hin) as (l1 & l2 & -> & Hnin & Hrem).
    exists (y :: l1), l2. rewrite Hrem. simpl. repeat split.
    intros [->|Hin']; [|contradiction].
    rewrite Nat.eqb_refl in Hy. discriminate.
Qed.

(** X15.  Unsubscribing a registered handler succeeds and removes exactly
    its first occurrence among the handlers of the event type: the other
    handlers, and later occurrences of the same handler, keep their order;
    the handlers of every other type are untouched. *)
Theorem unsubscribe_registered (ty : string) (handler : EventHandler)
    (bus : SimpleEventBus.t) :
  SimpleEventBus.registered ty handler bus = true ->
  exists bus' l1 l2,
    SimpleEventBus.unsubscribe ty handler bus = Ok bus' /\
    handlers_for ty bus = l1 ++ handler :: l2 /\
    ~ In handler l1 /\
    handlers_for ty bus' = l1 ++ l2 /\
    (forall other, other <> ty -> handlers_for other bus' = handlers_for other bus).
Proof.
  unfold SimpleEventBus.registered, SimpleEventBus.unsubscribe, handlers_for.
  destruct (SimpleEventBus._handlers bus !! ty) as [l|] eqn:Hl; [|discriminate].
  intros Hreg. destruct (list_remove_first handler l Hreg) as (l1 & l2 & -> & Hnin & Hrem).
  rewrite Hrem. simpl. eexists _, l1, l2. split; [reflexivity|].
  simpl. rewrite lookup_insert_eq. repeat split; auto.
  intros other Hne. now rewrite lookup_insert_ne.
Qed.

Lemma unsubscribe_registered_witness :
  let bus := SimpleEventBus.subscribe "memory.created" 1%nat
               (SimpleEventBus.subscribe "memory.created" 2%nat
                  (SimpleEventBus.subscribe "memory.created" 1%nat
                     SimpleEventBus.init)) in
  SimpleEventBus.registered "memory.created" 1%nat bus = true /\
  handlers_for "memory.created" bus = [1; 2; 1]%nat /\
  exists bus',
    SimpleEventBus.unsubscribe "memory.created" 1%nat bus = Ok bus' /\
    handlers_for "memory.created" bus' = [2; 1]%nat.
Proof.
  intros bus. split; [reflexivity|]. split; [reflexivity|].
  destruct (unsubscribe_registered "memory.created" 1%nat bus eq_refl)
    as (bus' & l1 & l2 & Hu & Hl & Hnin & Hl' & _).
  exists bus'. split; [exact Hu|].
  rewrite Hl'. change (handlers_for "memory.created" bus) with [1; 2; 1]%nat in Hl.
  destruct l1 as [|x l1].
  - simpl in Hl. now injection Hl as <-.
  - simpl in Hl. injection Hl as <- _. exfalso. apply Hnin. now left.
Defined.

Lemma list_remove_appended (h : EventHandler) (l : list EventHandler) :
  existsb (Nat.eqb h) l = false ->
  SimpleEventBus.list_remove h (l ++ [h]) = Ok l.
Proof.
  induction l as [|y l IH]; simpl.
  - intros _. now rewrite Nat.eqb_refl.
  - intros H'. apply orb_false_iff in H' as [Hy Hl].
    rewrite Nat.eqb_sym, Hy, (IH Hl). reflexivity.
Qed.

(** X16.  Subscribing a handler that was not registered and unsubscribing
    it again gives back, for every event type, the handlers there were
    before. *)
Theorem subscribe_unsubscribe (ty : string) (handler : EventHandler)
    (bus : SimpleEventBus.t) :
  SimpleEventBus.registered ty handler bus = false ->
  exists bus',
    SimpleEventBus.unsubscribe ty handler
      (SimpleEventBus.subscribe ty handler bus) = Ok bus' /\
    forall other, handlers_for other bus' = handlers_for other bus.
Proof.
  unfold SimpleEventBus.registered, SimpleEventBus.unsubscribe,
    SimpleEventBus.subscribe, handlers_for. simpl.
  rewrite lookup_insert_eq. intros Hreg.
  assert (Hrem : SimpleEventBus.list_remove handler
                   (match SimpleEventBus._handlers bus !! ty with
                    | Some l => l
                    | None => []
                    end ++ [handler])
                 = Ok match SimpleEventBus._handlers bus !! ty with
                      | Some l => l
                      | None => []
                      end).
  { apply list_remove_appended.
    now destruct (SimpleEventBus._handlers bus !! ty). }
  rewrite Hrem. simpl. eexists. split; [reflexivity|].
  intros other. simpl. destruct (decide (ty = other)) as [<-|Hne].
  - now rewrite lookup_insert_eq.
  - now rewrite !lookup_insert_ne.
Qed.

Lemma subscribe_unsubscribe_witness :
  let bus := SimpleEventBus.subscribe "memory.created" 2%nat SimpleEventBus.init in
  SimpleEventBus.registered "memory.created" 1%nat bus = false /\
  exists bus',
    SimpleEventBus.unsubscribe "memory.created" 1%nat
      (SimpleEventBus.subscribe "memory.created" 1%nat bus) = Ok bus' /\
    handlers_for "memory.created" bus' = [2%nat].
Proof.
  intros bus. split; [reflexivity|].
  destruct (subscribe_unsubscribe "memory.created" 1%nat bus eq_refl)
    as (bus' & Hu & Hsame).
  exists bus'. split; [exact Hu|]. now rewrite Hsame.
Defined.

(** * Health *)

(** X17.  The overall status of [check_health] is ["healthy"] exactly when
    both components report ["healthy"]; it is ["unhealthy"] exactly when
    the storage check raises, or the storage is healthy and the embedding
    check raises; in every other case it is ["degraded"] - in particular
    when the storage is degraded and the embedding check raises. *)
Theorem check_health_spec (storage embedding : HealthChecker.ComponentHealth) :
  HealthChecker.check_health storage embedding
  = if component_ok storage && component_ok embedding then "healthy"
    else if component_raised storage
            || component_ok storage && component_raised embedding
         then "unhealthy"
         else "degraded".
Proof.
  unfold HealthChecker.check_health, component_ok, component_raised.
  destruct storage as [st|e1], embedding as [em|e2]; simpl;
    try destruct (HealthChecker.is_healthy st);
    try destruct (HealthChecker.is_healthy em); reflexivity.
Qed.

(** * Further properties of the manager *)

Section ManagerMore.
Variable self : MemoryManager.t.
Import MemoryManager.

Lemma generate_embedding_eq (text : string) (w : World) :
  let n := embed_calls w in
  let a k := embedding self (n + k)%nat text in
  let r := first_of_three (a 0%nat) (a 1%nat) (a 2%nat) in
  _generate_embedding_with_retry self text w
  = (r,
     mkWorld (storage w) (storage_calls w)
             (n + attempts_made (a 0%nat) (a 1%nat))%nat
             (metrics w
              ++ recorded self
                   match r with
                   | Ok _ => [record_embedding "success"]
                   | Raise _ => []
                   end)
             (published w)).
Proof.
  cbv beta zeta. rewrite !Nat.add_0_r.
  replace (embed_calls w + 1)%nat with (S (embed_calls w)) by lia.
  replace (embed_calls w + 2)%nat with (S (S (embed_calls w))) by lia.
  unfold _generate_embedding_with_retry, with_retry, retry_loop, bind, embed,
    record, recorded, modify, ret, first_of_three, attempts_made.
  simpl.
  destruct (has_metrics self); simpl;
    (destruct (embedding self (embed_calls w) text); simpl;
     [|destruct (embedding self (S (embed_calls w)) text); simpl;
       [|destruct (embedding self (S (S (embed_calls w))) text); simpl]]);
    rewrite ?app_nil_r; repeat f_equal; lia.
Qed.

(** X18.  [_generate_embedding_with_retry] calls the embedding service at
    most three times: it returns the first successful answer and stops
    there, or raises the third failure; it records one ["success"] metric
    when it succeeds and none otherwise, and it touches neither the
    backend nor the published events. *)
Theorem generate_embedding_retry (text : string) (w : World) :
  let n := embed_calls w in
  let a k := embedding self (n + k)%nat text in
  let r := fst (_generate_embedding_with_retry self text w) in
  let w' := snd (_generate_embedding_with_retry self text w) in
  r = first_of_three (a 0%nat) (a 1%nat) (a 2%nat) /\
  embed_calls w' = (n + attempts_made (a 0%nat) (a 1%nat))%nat /\
  (1 <= attempts_made (a 0%nat) (a 1%nat) <= 3)%nat /\
  metrics w'
  = metrics w
    ++ recorded self
         match r with
         | Ok _ => [record_embedding "success"]
         | Raise _ => []
         end /\
  backend_untouched w w'.
Proof.
  cbv beta zeta. rewrite generate_embedding_eq. cbv beta zeta. simpl.
  split; [reflexivity|]. split; [reflexivity|].
  split; [|split; [reflexivity|repeat split]].
  unfold attempts_made.
  destruct (embedding self (embed_calls w + 0) text);
    [|destruct (embedding self (embed_calls w + 1) text)]; lia.
Qed.

Lemma not_blank_truthy (c : string) :
  Py.all_space c = false ->
  is_blank c = false /\ Py.truthy c = true /\ Py.truthy (Py.strip c) = true.
Proof.
  intros H.
  assert (Hb : is_blank c = false).
  { destruct (is_blank c) eqn:Hb; [|reflexivity].
    apply is_blank_iff in Hb. congruence. }
  split; [exact Hb|].
  unfold is_blank in Hb. apply orb_false_iff in Hb as [H1 H2].
  now rewrite negb_false_iff in H1, H2.
Qed.

Lemma truthy_days_Some (o : option Z) (d : Z) :
  truthy_days o = Some d <-> o = Some d /\ d <> 0.
Proof.
  unfold truthy_days. destruct o as [n|].
  - destruct (Z.eqb_spec n 0); split.
    + discriminate.
    + intros [[= ->] Hd]. contradiction.
    + intros [= ->]. now split.
    + now intros [-> _].
  - split; [discriminate|]. now intros [? _].
Qed.

Lemma truthy_days_None (o : option Z) :
  truthy_days o = None <-> o = None \/ o = Some 0.
Proof.
  unfold truthy_days. destruct o as [n|].
  - destruct (Z.eqb_spec n 0) as [->|Hn]; split; auto; try discriminate.
    intros [H|[= ->]]; [discriminate|contradiction].
  - split; auto.
Qed.

(** What [save] amounts to on a content that passes its test: it raises
    [OverflowError] at once when the expiry cannot be formed, and
    otherwise stores the memory built from its arguments. *)
Lemma save_nonblank (env : SaveEnv) (content : string)
    (metadata : option MemoryMetadata.t) (tenant_id : option string)
    (generate_embedding : bool) (ttl_days : option Z) (w : World) :
  Py.all_space content = false ->
  let chosen :=
    match truthy_days ttl_days with
    | Some d => Some d
    | None => truthy_days (Settings.default_ttl_days (settings self))
    end in
  let emb :=
    if generate_embedding
    then match fst (_generate_embedding_with_retry self content w) with
         | Ok e => Some e
         | Raise _ => None
         end
    else None in
  let stored exp :=
    let m :=
      Memory.mk (new_id env) (Py.strip content)
        (match metadata with Some md => md | None => MemoryMetadata.default end)
        emb (resolve_tenant self tenant_id) (now_created env) (now_updated env)
        exp [] [] 1 in
    exists w',
      save self env content metadata tenant_id generate_embedding ttl_days w
      = (Ok m, w') /\
      storage w' = InMemoryBackend.save m (storage w) /\
      storage_calls w' = storage_calls w ++ [call_save m] /\
      published w' = published w ++ [MemoryCreatedEvent m] in
  match chosen with
  | Some d =>
      if ttl_in_range (now_ttl env) d
      then stored (Some (now_ttl env + d * 86400000000))
      else save self env content metadata tenant_id generate_embedding
             ttl_days w = (Raise OverflowError, w)
  | None => stored None
  end.
Proof.
  intros Hc. destruct (not_blank_truthy _ Hc) as (Hb & _ & _).
  cbv zeta.
  remember (save self env content metadata tenant_id generate_embedding
              ttl_days w) as R eqn:HR.
  unfold save in HR. rewrite Hb in HR.
  unfold bind at 1 in HR. unfold lift at 1 in HR.
  rewrite (new_after_strip _ _ _ _ _ _ Hb) in HR.
  unfold bind at 1 in HR. unfold lift at 1 in HR.
  pose proof (generate_embedding_untouched self content w) as (U1 & U2 & U3).
  destruct (truthy_days ttl_days) as [d|];
    [|destruct (truthy_days (Settings.default_ttl_days (settings self)))
        as [d|]];
    rewrite ?set_ttl_eq in HR;
    try (destruct (ttl_in_range (now_ttl env) d); [|exact HR]);
    cbv beta iota in HR;
    (destruct generate_embedding;
     [unfold bind at 1 in HR; unfold try_except at 1 in HR;
      unfold bind at 1 in HR;
      destruct (_generate_embedding_with_retry self content w)
        as [[e|err] w1]; simpl in U1, U2, U3; simpl fst|]);
    unfold bind, try_except, record, modify, ret, publish in HR;
    rewrite ?save_with_retry_eq in HR;
    destruct (has_metrics self); simpl in HR; rewrite ?U1, ?U2, ?U3 in HR;
    subst R; eexists; (split; [reflexivity|]); simpl; auto.
Qed.

(** X19.  [save] of a content that is not blank succeeds, whatever the
    embedding service answers, provided every number of days it may use
    for the expiry ([ttl_days], the configured default) gives an expiry
    that can be formed: the memory returned carries the fresh identifier,
    the content stripped of surrounding white space, the resolved tenant,
    the given or default metadata and version 1; its embedding is the one
    generated from the content as given, or absent when generation is off
    or fails; it is written to the backend once, one [created] event is
    published, and [get] then returns it. *)
Theorem save_spec (env : SaveEnv) (content : string)
    (metadata : option MemoryMetadata.t) (tenant_id : option string)
    (generate_embedding : bool) (ttl_days : option Z) (w : World) :
  Py.all_space content = false ->
  (forall d,
     ttl_days = Some d \/ Settings.default_ttl_days (settings self) = Some d ->
     ttl_in_range (now_ttl env) d = true) ->
  exists m w',
    save self env content metadata tenant_id generate_embedding ttl_days w
    = (Ok m, w') /\
    Memory.id m = new_id env /\
    Memory.content m = Py.strip content /\
    Memory.tenant_id m = resolve_tenant self tenant_id /\
    Memory.metadata m
    = match metadata with Some md => md | None => MemoryMetadata.default end /\
    Memory.version m = 1%positive /\ Memory.versions m = [] /\
    Memory.embedding m
    = (if generate_embedding
       then match fst (_generate_embedding_with_retry self content w) with
            | Ok e => Some e
            | Raise _ => None
            end
       else None) /\
    storage w' = InMemoryBackend.save m (storage w) /\
    storage_calls w' = storage_calls w ++ [call_save m] /\
    published w' = published w ++ [MemoryCreatedEvent m] /\
    fst (get self (Memory.id m) tenant_id w') = Ok (Some m).
Proof.
  intros Hc Hrange.
  pose proof (save_nonblank env content metadata tenant_id generate_embedding
                ttl_days w Hc) as Hsave.
  cbv zeta in Hsave.
  assert (Hstored : exists exp w',
            let m :=
              Memory.mk (new_id env) (Py.strip content)
                (match metadata with
                 | Some md => md
                 | None => MemoryMetadata.default
                 end)
                (if generate_embedding
                 then match fst (_generate_embedding_with_retry self content w)
                      with
                      | Ok e => Some e
                      | Raise _ => None
                      end
                 else None)
                (resolve_tenant self tenant_id) (now_created env)
                (now_updated env) exp [] [] 1 in
            save self env content metadata tenant_id generate_embedding
              ttl_days w = (Ok m, w') /\
            storage w' = InMemoryBackend.save m (storage w) /\
            storage_calls w' = storage_calls w ++ [call_save m] /\
            published w' = published w ++ [MemoryCreatedEvent m]).
  { destruct (truthy_days ttl_days) as [d|] eqn:Ht.
    - apply truthy_days_Some in Ht as [Ht _].
      rewrite (Hrange d (or_introl Ht)) in Hsave.
      destruct Hsave as (w' & H). eexists _, w'. exact H.
    - destruct (truthy_days (Settings.default_ttl_days (settings self)))
        as [d|] eqn:Hd.
      + apply truthy_days_Some in Hd as [Hd _].
        rewrite (Hrange d (or_intror Hd)) in Hsave.
        destruct Hsave as (w' & H). eexists _, w'. exact H.
      + destruct Hsave as (w' & H). eexists _, w'. exact H. }
  destruct Hstored as (exp & w' & Hs & Hst & Hcalls & Hpub).
  eexists _, w'. split; [exact Hs|]. simpl.
  do 7 (split; [reflexivity|]).
  split; [exact Hst|]. split; [exact Hcalls|]. split; [exact Hpub|].
  rewrite get_eq. simpl. rewrite Hst. f_equal.
  unfold InMemoryBackend.get. simpl. apply dict_get_set_eq.
Qed.

(** X20.  The expiry of a memory saved with a content that is not blank.
    A [ttl_days] other than zero is the number of days used; a [ttl_days]
    that is absent or zero falls back to the configured default, when
    that is not zero; with neither the memory never expires.  When the
    expiry so many days after the clock reading can be formed the memory
    saved expires then; when it cannot, [save] raises [OverflowError] and
    nothing has happened: no call of the embedding service or of the
    backend, no event. *)
Theorem save_ttl (env : SaveEnv) (content : string)
    (metadata : option MemoryMetadata.t) (tenant_id : option string)
    (generate_embedding : bool) (ttl_days : option Z) (w : World) :
  Py.all_space content = false ->
  (forall d, ttl_days = Some d -> d <> 0 ->
     save_with_ttl self env content metadata tenant_id generate_embedding
       ttl_days w d) /\
  (ttl_days = None \/ ttl_days = Some 0 ->
   forall d, Settings.default_ttl_days (settings self) = Some d -> d <> 0 ->
     save_with_ttl self env content metadata tenant_id generate_embedding
       ttl_days w d) /\
  (ttl_days = None \/ ttl_days = Some 0 ->
   Settings.default_ttl_days (settings self) = None \/
   Settings.default_ttl_days (settings self) = Some 0 ->
   exists m w',
     save self env content metadata tenant_id generate_embedding ttl_days w
     = (Ok m, w') /\
     Memory.expires_at m = None).
Proof.
  intros Hc.
  pose proof (save_nonblank env content metadata tenant_id generate_embedding
                ttl_days w Hc) as Hsave.
  cbv zeta in Hsave.
  assert (Hwith : forall d,
            match truthy_days ttl_days with
            | Some d0 => Some d0
            | None => truthy_days (Settings.default_ttl_days (settings self))
            end = Some d ->
            save_with_ttl self env content metadata tenant_id
              generate_embedding ttl_days w d).
  { intros d Hd. rewrite Hd in Hsave. unfold save_with_ttl. split; intros Hr;
      rewrite Hr in Hsave.
    - destruct Hsave as (w' & Hs & _). eexists _, w'.
      split; [exact Hs|reflexivity].
    - exact Hsave. }
  split; [|split].
  - intros d Ht Hd. apply Hwith.
    now rewrite (proj2 (truthy_days_Some ttl_days d) (conj Ht Hd)).
  - intros Ht d Hdef Hd. apply Hwith.
    rewrite (proj2 (truthy_days_None ttl_days) Ht).
    now apply truthy_days_Some.
  - intros Ht Hdef.
    rewrite (proj2 (truthy_days_None ttl_days) Ht),
      (proj2 (truthy_days_None _) Hdef) in Hsave.
    destruct Hsave as (w' & Hs & _). eexists _, w'.
    split; [exact Hs|reflexivity].
Qed.

(** X21.  The manager's [delete] always succeeds and publishes a [deleted]
    event for the identifier and the resolved tenant, whether or not a
    memory was stored; on a backend without duplicate keys, [get] for the
    same identifier and tenant then finds nothing. *)
Theorem manager_delete_spec (memory_id : UUID) (tenant_id : option string)
    (w : World) :
  unique_keys (storage w) ->
  let t := resolve_tenant self tenant_id in
  exists w',
    delete self memory_id tenant_id w = (Ok tt, w') /\
    storage w' = InMemoryBackend.delete memory_id t (storage w) /\
    storage_calls w' = storage_calls w ++ [call_delete memory_id t] /\
    published w' = published w ++ [MemoryDeletedEvent memory_id t] /\
    embed_calls w' = embed_calls w /\
    fst (get self memory_id tenant_id w') = Ok None.
Proof.
  intros [Hu _] t.
  unfold delete, bind, log_storage_call, set_storage, record, modify, publish.
  fold t. destruct (has_metrics self); simpl;
    (eexists; split; [reflexivity|]); simpl; repeat split;
    rewrite get_eq; simpl; f_equal; fold t;
    unfold InMemoryBackend.get, InMemoryBackend.delete; simpl;
    now apply dict_get_pop_eq.
Qed.

(** X22.  On a stored memory, [update] with a content that is not empty
    but made of white space only raises [InvalidMemoryError] with field
    ["content"] right after the lookup: nothing is written or published
    and the embedding service is not called.  An empty content, unlike in
    [save], is not rejected: it is treated as no content at all. *)
Theorem update_blank_content (now : datetime) (memory_id : UUID)
    (metadata : option MemoryMetadata.t) (tenant_id : option string)
    (w : World) (m : Memory.t) :
  InMemoryBackend.get memory_id (resolve_tenant self tenant_id) (storage w)
  = Some m ->
  (forall c, c <> "" -> Py.all_space c = true ->
     update self now memory_id (Some c) metadata tenant_id w
     = (Raise (InvalidMemoryError "Memory content cannot be empty" "content"),
        after_get self memory_id (resolve_tenant self tenant_id) w)) /\
  update self now memory_id (Some "") metadata tenant_id w
  = update self now memory_id None metadata tenant_id w.
Proof.
  intros Hget. split; [|reflexivity].
  intros c Hne Hsp.
  unfold update. unfold bind at 1. rewrite get_eq, resolve_tenant_idem, Hget.
  apply strip_empty_iff in Hsp.
  destruct c as [|a c]; [congruence|]. simpl Py.truthy. cbv iota.
  rewrite Hsp. reflexivity.
Qed.

(** X23.  On a stored memory, [update] with a content that is not blank
    succeeds: the stored content becomes the content stripped of
    surrounding white space; the embedding is generated afresh from the
    content as given, and the old embedding is kept when generation fails;
    the metadata are replaced when given; identifier, tenant, creation
    time, expiry and relationships are unchanged; the memory is written
    back, an [updated] event carrying the previous version is published,
    and [get] then returns the updated memory. *)
Theorem update_content_spec (now : datetime) (memory_id : UUID) (c : string)
    (metadata : option MemoryMetadata.t) (tenant_id : option string)
    (w : World) (m : Memory.t) :
  store_wf (storage w) ->
  InMemoryBackend.get memory_id (resolve_tenant self tenant_id) (storage w)
  = Some m ->
  Py.all_space c = false ->
  let t := resolve_tenant self tenant_id in
  exists m' w',
    update self now memory_id (Some c) metadata tenant_id w = (Ok m', w') /\
    Memory.content m' = Py.strip c /\
    Memory.embedding m'
    = match fst (_generate_embedding_with_retry self c
                   (after_get self memory_id t w)) with
      | Ok e => Some e
      | Raise _ => Memory.embedding m
      end /\
    Memory.metadata m'
    = match metadata with Some md => md | None => Memory.metadata m end /\
    Memory.id m' = memory_id /\ Memory.tenant_id m' = t /\
    Memory.created_at m' = Memory.created_at m /\
    Memory.expires_at m' = Memory.expires_at m /\
    Memory.relationships m' = Memory.relationships m /\
    storage w' = InMemoryBackend.save m' (storage w) /\
    published w' = published w ++ [MemoryUpdatedEvent m' (Memory.version m)] /\
    InMemoryBackend.get memory_id t (storage w') = Some m'.
Proof.
  intros Hwf Hget Hc t. subst t.
  destruct (get_key _ _ _ _ Hwf Hget) as [Hid Hten].
  destruct (not_blank_truthy _ Hc) as (_ & Ht & Hts).
  unfold update. unfold bind at 1. rewrite get_eq, resolve_tenant_idem, Hget.
  rewrite Ht, Hts. simpl negb. cbv iota.
  pose proof (generate_embedding_untouched self c
                (after_get self memory_id (resolve_tenant self tenant_id) w))
    as (U1 & U2 & U3).
  unfold bind at 1. unfold try_except at 1. unfold bind at 1.
  destruct (_generate_embedding_with_retry self c
              (after_get self memory_id (resolve_tenant self tenant_id) w))
    as [[e|err] w1]; simpl in U1, U2, U3; simpl fst;
    unfold bind, try_except, record, modify, ret, publish;
    rewrite ?save_with_retry_eq;
    destruct (Settings.enable_versioning (settings self)), metadata as [md|],
      (has_metrics self); simpl; rewrite ?U1, ?U3;
    (do 2 eexists; split; [reflexivity|]); simpl;
    repeat (split; [first [reflexivity|assumption]|]);
    unfold InMemoryBackend.get; simpl; rewrite ?Hid, ?Hten;
    apply dict_get_set_eq.
Qed.

(** What a successful [update] keeps of any property that the three
    assignments of [update] keep. *)
Lemma update_found_inv (P : Memory.t -> Prop) (now : datetime)
    (memory_id : UUID) (content : option string)
    (metadata : option MemoryMetadata.t) (tenant_id : option string)
    (w w' : World) (m m' : Memory.t) :
  (forall c x, P x -> P (Memory.set_content c x)) ->
  (forall e x, P x -> P (Memory.set_embedding e x)) ->
  (forall md x, P x -> P (Memory.set_metadata md x)) ->
  InMemoryBackend.get memory_id (resolve_tenant self tenant_id) (storage w)
  = Some m ->
  P m ->
  update self now memory_id content metadata tenant_id w = (Ok m', w') ->
  exists m1,
    P m1 /\
    m' = (if Settings.enable_versioning (settings self)
          then Memory.create_version now
                 (Some (changed_fields_of content metadata)) m1
          else m1).
Proof.
  intros Pc Pe Pm Hget HP. unfold update.
  unfold bind at 1. rewrite get_eq, resolve_tenant_idem, Hget.
  set (w0 := after_get self memory_id (resolve_tenant self tenant_id) w).
  clearbody w0. unfold bind at 1.
  match goal with
  | |- context [match ?phase w0 with _ => _ end] =>
      assert (Hphase :
                (exists e, phase w0 = (Raise e, w0)) \/
                exists m1 w1, phase w0 = (Ok m1, w1) /\ P m1)
  end.
  { destruct content as [c|]; simpl.
    - destruct (Py.truthy c); simpl.
      + destruct (Py.truthy (Py.strip c)); simpl.
        * right. unfold try_except, bind.
          destruct (_generate_embedding_with_retry self c w0) as [[e|err] w1];
            simpl; do 2 eexists; (split; [reflexivity|]); auto.
        * left. eexists. reflexivity.
      + right. do 2 eexists. split; [reflexivity|exact HP].
    - right. do 2 eexists. split; [reflexivity|exact HP]. }
  destruct Hphase as [[e He]|(m1 & w1 & Hph & HP1)].
  - rewrite He. discriminate.
  - rewrite Hph. clear Hph.
    unfold bind, try_except. rewrite save_with_retry_eq. simpl.
    unfold record, modify, raise, publish, ret.
    set (m2 := match metadata with
               | Some md => Memory.set_metadata md m1
               | None => m1
               end).
    assert (HP2 : P m2) by (unfold m2; destruct metadata; auto).
    intros Hres. exists m2. split; [exact HP2|].
    fold (changed_fields_of content metadata) in Hres.
    destruct (has_metrics self); simpl in Hres;
      injection Hres as <- _; reflexivity.
Qed.

(** X24.  With versioning disabled, a successful [update] leaves the
    version number, the version history and also [updated_at] as they
    were: only [create_version] assigns them. *)
Theorem update_unversioned (now : datetime) (memory_id : UUID)
    (content : option string) (metadata : option MemoryMetadata.t)
    (tenant_id : option string) (w w' : World) (m m' : Memory.t) :
  Settings.enable_versioning (settings self) = false ->
  InMemoryBackend.get memory_id (resolve_tenant self tenant_id) (storage w)
  = Some m ->
  update self now memory_id content metadata tenant_id w = (Ok m', w') ->
  Memory.version m' = Memory.version m /\
  Memory.versions m' = Memory.versions m /\
  Memory.updated_at m' = Memory.updated_at m.
Proof.
  intros Hver Hget Hupd.
  destruct (update_found_inv
              (fun x => Memory.version x = Memory.version m /\
                        Memory.versions x = Memory.versions m /\
                        Memory.updated_at x = Memory.updated_at m)
              now memory_id content metadata tenant_id w w' m m')
    as (m1 & HP & Hm'); auto.
  rewrite Hver in Hm'. now subst m'.
Qed.

(** X25.  [search] called with a query that is empty or made of white
    space only raises [InvalidQueryError], a validation error carrying the
    query, and leaves the world as it was: neither the embedding service
    nor the backend is called and nothing is published or recorded. *)
Theorem search_blank_query (pow_half : float -> float) (query : string)
    (tenant_id : option string) (limit : Z) (filters : option Filters.t)
    (w : World) :
  Py.all_space query = true ->
  search self pow_half query tenant_id limit filters w
  = (Raise (InvalidQueryError "Query cannot be empty" query), w) /\
  error_class (InvalidQueryError "Query cannot be empty" query)
  = ValidationErrorClass.
Proof.
  intros Hblank. apply is_blank_iff in Hblank.
  unfold search. rewrite Hblank. split; reflexivity.
Qed.

(** X26.  In [search], unlike in [save], a failure of the embedding
    service is fatal: when three attempts in a row fail, [search] raises
    the third failure after exactly three calls of the service, without
    calling the backend and without publishing an event; only the
    ["error"] metric is recorded. *)
Theorem search_embedding_failure (pow_half : float -> float) (query : string)
    (tenant_id : option string) (limit : Z) (filters : option Filters.t)
    (w : World) (e0 e1 e2 : PyError) :
  Py.all_space query = false ->
  embedding self (embed_calls w) query = Raise e0 ->
  embedding self (S (embed_calls w)) query = Raise e1 ->
  embedding self (S (S (embed_calls w))) query = Raise e2 ->
  search self pow_half query tenant_id limit filters w
  = (Raise e2,
     mkWorld (storage w) (storage_calls w) (embed_calls w + 3)%nat
       (metrics w
        ++ recorded self
             [record_operation "search" (resolve_tenant self tenant_id) "error"])
       (published w)).
Proof.
  intros Hc H0 H1 H2. destruct (not_blank_truthy _ Hc) as (Hb & _ & _).
  unfold search. rewrite Hb. unfold try_except, bind at 1.
  rewrite generate_embedding_eq. cbv beta zeta. rewrite !Nat.add_0_r.
  replace (embed_calls w + 1)%nat with (S (embed_calls w)) by lia.
  replace (embed_calls w + 2)%nat with (S (S (embed_calls w))) by lia.
  rewrite H0, H1, H2. simpl.
  unfold bind, record, recorded, modify, raise.
  destruct (has_metrics self); simpl; rewrite ?app_nil_r; reflexivity.
Qed.

(** X27.  When the embedding service answers and the backend search
    succeeds, [search] returns the backend's results for the resolved
    tenant unchanged, after one call of the backend; the backend's content
    is untouched and one [searched] event carrying the query and the
    number of results is published. *)
Theorem search_success (pow_half : float -> float) (query : string)
    (tenant_id : option string) (limit : Z) (filters : option Filters.t)
    (w : World) (q : vector) (results : list SearchResult.t) :
  Py.all_space query = false ->
  fst (_generate_embedding_with_retry self query w) = Ok q ->
  InMemoryBackend.search pow_half q (resolve_tenant self tenant_id) limit
    filters (storage w) = Ok results ->
  let t := resolve_tenant self tenant_id in
  exists w',
    search self pow_half query tenant_id limit filters w = (Ok results, w') /\
    storage w' = storage w /\
    storage_calls w' = storage_calls w ++ [call_search q t limit] /\
    published w'
    = published w ++ [MemorySearchedEvent query (length results) t].
Proof.
  intros Hc Hq Hs t. destruct (not_blank_truthy _ Hc) as (Hb & _ & _).
  unfold search. rewrite Hb. fold t.
  pose proof (generate_embedding_untouched self query w) as (U1 & U2 & U3).
  unfold try_except, bind at 1.
  destruct (_generate_embedding_with_retry self query w) as [[q'|err] w1];
    simpl in Hq, U1, U2, U3; [|discriminate].
  injection Hq as ->.
  unfold bind, log_storage_call, modify, lift. simpl. rewrite U1. fold t.
  unfold t at 1. rewrite Hs. fold t.
  unfold record, modify, publish, ret.
  destruct (has_metrics self); simpl; rewrite ?U1, ?U2, ?U3;
    (eexists; split; [reflexivity|]); simpl; auto.
Qed.
End ManagerMore.

(** ** Instances of the manager properties *)

Lemma save_spec_witness :
  Py.all_space "  remember this " = false /\
  exists m w',
    MemoryManager.save (sample_manager true) sample_env "  remember this "
      None None true (Some 30) MemoryManager.init_world = (Ok m, w') /\
    Memory.content m = "remember this" /\
    Memory.tenant_id m = "default" /\
    Memory.embedding m = Some [1; 0]%float /\
    fst (MemoryManager.get (sample_manager true) (Memory.id m) None w')
    = Ok (Some m).
Proof.
  split; [reflexivity|].
  assert (Hrange : forall d,
            Some 30 = Some d \/
            Settings.default_ttl_days
              (MemoryManager.settings (sample_manager true)) = Some d ->
            ttl_in_range (MemoryManager.now_ttl sample_env) d = true).
  { intros d [[= <-]|Hd]; [reflexivity|discriminate]. }
  destruct (save_spec (sample_manager true) sample_env "  remember this "
              None None true (Some 30) MemoryManager.init_world eq_refl Hrange)
    as (m & w' & Hs & _ & Hc & Ht & _ & _ & _ & He & _ & _ & _ & Hg).
  exists m, w'. split; [exact Hs|].
  split; [rewrite Hc; reflexivity|].
  split; [rewrite Ht; reflexivity|].
  split; [rewrite He; reflexivity|exact Hg].
Defined.

Lemma save_ttl_witness :
  let self :=
    MemoryManager.mk (Settings.mk "default" (Some 30) true)
                     (fun _ _ => Ok [1%float; 0%float]) false in
  Py.all_space "note" = false /\
  (exists m w',
     MemoryManager.save self sample_env "note" None None false (Some 0)
       MemoryManager.init_world = (Ok m, w') /\
     Memory.expires_at m = Some 2592000000100) /\
  MemoryManager.save self sample_env "note" None None false (Some 3652059)
    MemoryManager.init_world
  = (Raise OverflowError, MemoryManager.init_world).
Proof.
  intros self. split; [reflexivity|].
  destruct (save_ttl self sample_env "note" None None false (Some 0)
              MemoryManager.init_world eq_refl)
    as (_ & Hdef & _).
  destruct (save_ttl self sample_env "note" None None false (Some 3652059)
              MemoryManager.init_world eq_refl)
    as (Hexp & _ & _).
  split.
  - destruct (Hdef (or_intror eq_refl) 30 eq_refl ltac:(lia)) as [Hok _].
    exact (Hok eq_refl).
  - destruct (Hexp 3652059 eq_refl ltac:(lia)) as [_ Hraise].
    exact (Hraise eq_refl).
Defined.

Lemma manager_delete_spec_witness :
  let self := sample_manager true in
  let w0 := snd (MemoryManager.save self sample_env "note" None None true None
                   MemoryManager.init_world) in
  unique_keys (MemoryManager.storage w0) /\
  fst (MemoryManager.get self 7%N None w0)
  = Ok (Some (Memory.mk 7%N "note" MemoryMetadata.default (Some [1; 0]%float)
                "default" 100 100 None [] [] 1)) /\
  exists w',
    MemoryManager.delete self 7%N None w0 = (Ok tt, w') /\
    MemoryManager.published w'
    = MemoryManager.published w0 ++ [MemoryDeletedEvent 7%N "default"] /\
    fst (MemoryManager.get self 7%N None w') = Ok None.
Proof.
  intros self w0.
  assert (Hu : unique_keys (MemoryManager.storage w0))
    by (split; repeat constructor; simpl; tauto).
  split; [exact Hu|]. split; [reflexivity|].
  destruct (manager_delete_spec self 7%N None w0 Hu)
    as (w' & Hd & _ & _ & Hp & _ & Hg).
  exists w'. split; [exact Hd|]. split; [exact Hp|exact Hg].
Defined.

Lemma update_blank_content_witness :
  let self := sample_manager true in
  let w0 := snd (MemoryManager.save self sample_env "note" None None true None
                   MemoryManager.init_world) in
  let m := Memory.mk 7%N "note" MemoryMetadata.default (Some [1; 0]%float)
             "default" 100 100 None [] [] 1 in
  InMemoryBackend.get 7%N (MemoryManager.resolve_tenant self None)
    (MemoryManager.storage w0) = Some m /\
  Py.all_space "   " = true /\
  fst (MemoryManager.update self 200 7%N (Some "   ") None None w0)
  = Raise (InvalidMemoryError "Memory content cannot be empty" "content").
Proof.
  intros self w0 m.
  assert (Hget : InMemoryBackend.get 7%N (MemoryManager.resolve_tenant self None)
                   (MemoryManager.storage w0) = Some m) by reflexivity.
  split; [exact Hget|]. split; [reflexivity|].
  destruct (update_blank_content self 200 7%N None None w0 m Hget) as [H _].
  rewrite (H "   "); [reflexivity|discriminate|reflexivity].
Defined.

Lemma update_content_spec_witness :
  let self := sample_manager true in
  let w0 := snd (MemoryManager.save self sample_env "note" None None true None
                   MemoryManager.init_world) in
  let m := Memory.mk 7%N "note" MemoryMetadata.default (Some [1; 0]%float)
             "default" 100 100 None [] [] 1 in
  store_wf (MemoryManager.storage w0) /\
  InMemoryBackend.get 7%N (MemoryManager.resolve_tenant self None)
    (MemoryManager.storage w0) = Some m /\
  Py.all_space " changed " = false /\
  exists m' w',
    MemoryManager.update self 200 7%N (Some " changed ") None None w0
    = (Ok m', w') /\
    Memory.content m' = "changed" /\
    InMemoryBackend.get 7%N "default" (MemoryManager.storage w') = Some m'.
Proof.
  intros self w0 m.
  assert (Hget : InMemoryBackend.get 7%N (MemoryManager.resolve_tenant self None)
                   (MemoryManager.storage w0) = Some m) by reflexivity.
  split; [exact store_wf_sample|]. split; [exact Hget|].
  split; [reflexivity|].
  destruct (update_content_spec self 200 7%N " changed " None None w0 m
              store_wf_sample Hget eq_refl)
    as (m' & w' & Hu & Hc & _ & _ & _ & _ & _ & _ & _ & _ & _ & Hg).
  exists m', w'. split; [exact Hu|]. split; [rewrite Hc; reflexivity|exact Hg].
Defined.

Lemma update_unversioned_witness :
  let self := sample_manager false in
  let w0 := snd (MemoryManager.save self sample_env "note" None None true None
                   MemoryManager.init_world) in
  let m := Memory.mk 7%N "note" MemoryMetadata.default (Some [1; 0]%float)
             "default" 100 100 None [] [] 1 in
  Settings.enable_versioning (MemoryManager.settings self) = false /\
  InMemoryBackend.get 7%N (MemoryManager.resolve_tenant self None)
    (MemoryManager.storage w0) = Some m /\
  exists m' w',
    MemoryManager.update self 200 7%N (Some "changed") None None w0
    = (Ok m', w') /\
    Memory.version m' = 1%positive /\
    Memory.versions m' = [] /\
    Memory.updated_at m' = 100.
Proof.
  intros self w0 m.
  assert (Hget : InMemoryBackend.get 7%N (MemoryManager.resolve_tenant self None)
                   (MemoryManager.storage w0) = Some m) by reflexivity.
  split; [reflexivity|]. split; [exact Hget|].
  assert (Hupd : exists m' w',
             MemoryManager.update self 200 7%N (Some "changed") None None w0
             = (Ok m', w'))
    by (do 2 eexists; vm_compute; reflexivity).
  destruct Hupd as (m' & w' & Hupd). exists m', w'.
  split; [exact Hupd|].
  exact (update_unversioned self 200 7%N (Some "changed") None None w0 w' m m'
           eq_refl Hget Hupd).
Defined.

Lemma search_blank_query_witness :
  Py.all_space "   " = true /\
  MemoryManager.search (sample_manager true) PrimFloat.sqrt "   " None 10 None
    MemoryManager.init_world
  = (Raise (InvalidQueryError "Query cannot be empty" "   "),
     MemoryManager.init_world).
Proof.
  split; [reflexivity|].
  exact (proj1 (search_blank_query (sample_manager true) PrimFloat.sqrt "   "
                  None 10 None MemoryManager.init_world eq_refl)).
Defined.

Lemma search_embedding_failure_witness :
  let self :=
    MemoryManager.mk (Settings.mk "default" None true)
      (fun n _ =>
         Raise (EmbeddingModelError
                  match n with
                  | O => "first"
                  | S O => "second"
                  | _ => "third"
                  end)) true in
  Py.all_space "query" = false /\
  fst (MemoryManager.search self PrimFloat.sqrt "query" None 10 None
         MemoryManager.init_world)
  = Raise (EmbeddingModelError "third") /\
  MemoryManager.storage_calls
    (snd (MemoryManager.search self PrimFloat.sqrt "query" None 10 None
            MemoryManager.init_world)) = [] /\
  MemoryManager.embed_calls
    (snd (MemoryManager.search self PrimFloat.sqrt "query" None 10 None
            MemoryManager.init_world)) = 3%nat.
Proof.
  intros self. split; [reflexivity|].
  rewrite (search_embedding_failure self PrimFloat.sqrt "query" None 10 None
             MemoryManager.init_world
             (EmbeddingModelError "first") (EmbeddingModelError "second")
             (EmbeddingModelError "third") eq_refl eq_refl eq_refl eq_refl).
  repeat split.
Defined.

Lemma search_success_witness :
  let self := sample_manager true in
  let w0 := snd (MemoryManager.save self sample_env "note" None None true None
                   MemoryManager.init_world) in
  Py.all_space "note" = false /\
  fst (MemoryManager._generate_embedding_with_retry self "note" w0)
  = Ok [1; 0]%float /\
  exists results w',
    InMemoryBackend.search PrimFloat.sqrt [1; 0]%float "default" 10 None
      (MemoryManager.storage w0) = Ok results /\
    MemoryManager.search self PrimFloat.sqrt "note" None 10 None w0
    = (Ok results, w') /\
    MemoryManager.published w'
    = MemoryManager.published w0
      ++ [MemorySearchedEvent "note" (length results) "default"].
Proof.
  intros self w0. split; [reflexivity|]. split; [reflexivity|].
  assert (Hs : exists results,
             InMemoryBackend.search PrimFloat.sqrt [1; 0]%float
               (MemoryManager.resolve_tenant self None) 10 None
               (MemoryManager.storage w0) = Ok results)
    by (eexists; vm_compute; reflexivity).
  destruct Hs as (results & Hs).
  destruct (search_success self PrimFloat.sqrt "note" None 10 None w0
              [1; 0]%float results eq_refl eq_refl Hs)
    as (w' & Hsearch & _ & _ & Hp).
  exists results, w'. split; [exact Hs|]. split; [exact Hsearch|exact Hp].
Defined.
